(** * yolov8-seg export wrapper: [WarpModel] of [predict.ipynb]

    The notebook wraps a pretrained segmentation network in an
    [nn.Module] whose [forward] permutes the prediction tensor, cuts it
    into boxes, class scores and mask coefficients, and concatenates
    them again with a constant channel in between.

    The development has four layers:
    - [result]: Python exceptions as values;
    - tensors ([Tensor], [permute], [getitem], [ones], [cat]): the part
      of the torch API that [forward] calls, on row-major data;
    - [WarpModel]: [__init__] and [forward] as written in the notebook,
      over an external network taken as a parameter;
    - [Mem]: [forward] once more, on a store, where tensors are views
      on shared storage, [permute] and slicing alias, [ones] and [cat]
      allocate, and the network's pass may write; effects and state
      are stated here, and the values computed are shown to be those
      of the layer above. *)

From Stdlib Require Import String List ZArith Arith Bool Lia.
Import ListNotations.
Local Open Scope string_scope.
Local Open Scope list_scope.
Local Open Scope nat_scope.

Set Warnings "-abstract-large-number".

(** ** Python exceptions *)

Inductive exn : Type :=
| PyExn (cls : string) (msg : string).

Inductive result (A : Type) : Type :=
| Ok (a : A)
| Raise (e : exn).

Arguments Ok {A} a.
Arguments Raise {A} e.

Definition bind {A B : Type} (r : result A) (k : A -> result B) : result B :=
  match r with
  | Ok a => k a
  | Raise e => Raise e
  end.

Declare Scope py_scope.
Delimit Scope py_scope with py.
Notation "x <- c ;; k" := (bind c (fun x => k))
  (at level 61, c at next level, right associativity) : py_scope.
Notation "' pat <- c ;; k" := (bind c (fun x => match x with pat => k end))
  (at level 61, pat pattern, c at next level, right associativity) : py_scope.

Definition IndexError (msg : string) : exn := PyExn "IndexError" msg.
Definition RuntimeError (msg : string) : exn := PyExn "RuntimeError" msg.

(** ** Tensor metadata *)

Inductive Device : Type :=
| cpu
| cuda (index : nat).

Inductive DType : Type :=
| float16 | bfloat16 | float32 | float64
| uint8 | int8 | int16 | int32 | int64 | bool_.

Definition Device_eqb (a b : Device) : bool :=
  match a, b with
  | cpu, cpu => true
  | cuda i, cuda j => Nat.eqb i j
  | _, _ => false
  end.

Definition is_floating_point (d : DType) : bool :=
  match d with
  | float16 | bfloat16 | float32 | float64 => true
  | _ => false
  end.

(** The scalars a tensor holds are left abstract (the code never computes
    with them), as is torch's type promotion: [forward] only meets the
    case of equal dtypes. *)
Class TorchOps (V : Type) : Type := {
  one : V;
  promote_types : DType -> DType -> DType;
  cast : DType -> DType -> V -> V
}.

Class TorchLaws {V : Type} (ops : TorchOps V) : Prop := {
  promote_types_same : forall d, promote_types d d = d;
  cast_same : forall d v, cast d d v = v
}.

(** ** Tensors *)

Section Tensors.

Context {V : Type} {ops : TorchOps V}.

Record Tensor : Type := mkTensor {
  shape : list nat;
  dtype : DType;
  device : Device;
  data : list V          (* row-major, [numel shape] elements *)
}.

Definition numel (s : list nat) : nat := fold_right Nat.mul 1 s.

Definition ndim (t : Tensor) : nat := length (shape t).

(** Position of the element at multi-index [idx] in row-major data. *)
Fixpoint offset (s idx : list nat) : nat :=
  match s, idx with
  | _ :: s', i :: idx' => i * numel s' + offset s' idx'
  | _, _ => 0
  end.

Fixpoint in_range (idx s : list nat) : bool :=
  match idx, s with
  | [], [] => true
  | i :: idx', n :: s' => (i <? n) && in_range idx' s'
  | _, _ => false
  end.

(** [t[idx]] for an index within the shape; the default of [nth] is
    never read there. *)
Definition item (t : Tensor) (idx : list nat) : V :=
  nth (offset (shape t) idx) (data t) one.

(** The data of the tensor of shape [s] whose element at [idx] is [f idx]. *)
Fixpoint build (s : list nat) (f : list nat -> V) : list V :=
  match s with
  | [] => [f []]
  | n :: s' => flat_map (fun i => build s' (fun idx => f (i :: idx))) (seq 0 n)
  end.

Definition tabulate (s : list nat) (dt : DType) (dv : Device)
  (f : list nat -> V) : Tensor :=
  mkTensor s dt dv (build s f).

(** *** [Tensor.permute] *)

Fixpoint index_of (j : nat) (dims : list nat) : nat :=
  match dims with
  | [] => 0
  | d :: dims' => if Nat.eqb d j then 0 else S (index_of j dims')
  end.

Definition is_permutation (dims : list nat) : bool :=
  forallb (fun j => existsb (Nat.eqb j) dims) (seq 0 (length dims)).

(** The index of the source element that lands at [idx] after
    [permute dims]: axis [i] of the result is axis [dims[i]] of the
    source. *)
Definition unpermute (dims idx : list nat) : list nat :=
  map (fun j => nth (index_of j dims) idx 0) (seq 0 (length dims)).

Definition permute (t : Tensor) (dims : list nat) : result Tensor :=
  if negb (Nat.eqb (length dims) (ndim t)) then
    Raise (RuntimeError "permute: number of dims does not match")
  else if negb (is_permutation dims) then
    Raise (RuntimeError "permute: repeated or out-of-range dim")
  else
    Ok (tabulate (map (fun d => nth d (shape t) 0) dims) (dtype t) (device t)
          (fun idx => item t (unpermute dims idx))).

(** *** Basic slicing, [t[a:b, c:d, ...]] with step 1 *)

Record slice : Type := mkSlice {
  start : option Z;
  stop : option Z
}.

Definition full : slice := mkSlice None None.

(** Python's [slice.indices]: a negative bound counts from the end, and
    every bound is clamped into [0 .. len]. *)
Definition clamp (len i : Z) : Z :=
  if (i <? 0)%Z then Z.max (i + len) 0 else Z.min i len.

Definition slice_start (s : slice) (len : nat) : nat :=
  match start s with
  | None => 0
  | Some i => Z.to_nat (clamp (Z.of_nat len) i)
  end.

Definition slice_stop (s : slice) (len : nat) : nat :=
  match stop s with
  | None => len
  | Some j => Z.to_nat (clamp (Z.of_nat len) j)
  end.

Definition slice_len (s : slice) (len : nat) : nat :=
  slice_stop s len - slice_start s len.

(** Axes without a slice are taken whole. *)
Fixpoint slice_starts (sl : list slice) (s : list nat) : list nat :=
  match s with
  | [] => []
  | n :: s' =>
      match sl with
      | [] => 0 :: slice_starts [] s'
      | x :: sl' => slice_start x n :: slice_starts sl' s'
      end
  end.

Fixpoint slice_shape (sl : list slice) (s : list nat) : list nat :=
  match s with
  | [] => []
  | n :: s' =>
      match sl with
      | [] => n :: slice_shape [] s'
      | x :: sl' => slice_len x n :: slice_shape sl' s'
      end
  end.

Fixpoint add_index (a b : list nat) : list nat :=
  match a, b with
  | x :: a', y :: b' => (x + y) :: add_index a' b'
  | _, _ => []
  end.

Definition getitem (t : Tensor) (sl : list slice) : result Tensor :=
  if ndim t <? length sl then
    Raise (IndexError "too many indices for tensor")
  else
    Ok (tabulate (slice_shape sl (shape t)) (dtype t) (device t)
          (fun idx => item t (add_index (slice_starts sl (shape t)) idx))).

(** [t.shape[i]] *)
Definition shape_at (t : Tensor) (i : nat) : result nat :=
  match nth_error (shape t) i with
  | Some n => Ok n
  | None => Raise (IndexError "tuple index out of range")
  end.

(** *** [torch.ones] *)

Definition ones (size : list nat) (dv : Device) (dt : DType) : Tensor :=
  tabulate size dt dv (fun _ => one).

(** *** [torch.cat]

    On tensors of the same number of axes; torch's exemption for empty
    one-axis tensors is left out. *)

Fixpoint set_nth (k v : nat) (l : list nat) : list nat :=
  match l, k with
  | [], _ => []
  | _ :: l', O => v :: l'
  | x :: l', S k' => x :: set_nth k' v l'
  end.

Fixpoint list_eqb (a b : list nat) : bool :=
  match a, b with
  | [], [] => true
  | x :: a', y :: b' => Nat.eqb x y && list_eqb a' b'
  | _, _ => false
  end.

(** Sizes must agree on every axis but [dim]. *)
Definition same_but (dim : nat) (s1 s2 : list nat) : bool :=
  list_eqb (set_nth dim 0 s1) (set_nth dim 0 s2).

(** The element of the concatenation at [idx]: walk the tensors along
    [dim], subtracting the sizes already passed. *)
Fixpoint select (dt : DType) (dim : nat) (ts : list Tensor) (idx : list nat) : V :=
  match ts with
  | [] => one
  | t :: ts' =>
      let i := nth dim idx 0 in
      let n := nth dim (shape t) 0 in
      if i <? n then cast (dtype t) dt (item t idx)
      else select dt dim ts' (set_nth dim (i - n) idx)
  end.

Definition cat (ts : list Tensor) (dim : nat) : result Tensor :=
  match ts with
  | [] => Raise (RuntimeError "torch.cat(): expected a non-empty list of Tensors")
  | t0 :: rest =>
      if negb (dim <? ndim t0) then
        Raise (IndexError "Dimension out of range")
      else if negb (forallb (fun t => same_but dim (shape t0) (shape t)) rest) then
        Raise (RuntimeError "Sizes of tensors must match except in the cat dimension")
      else if negb (forallb (fun t => Device_eqb (device t0) (device t)) rest) then
        Raise (RuntimeError "Expected all tensors to be on the same device")
      else
        let dt := fold_left promote_types (map dtype rest) (dtype t0) in
        let total := fold_right Nat.add 0 (map (fun t => nth dim (shape t) 0) ts) in
        Ok (tabulate (set_nth dim total (shape t0)) dt (device t0)
              (select dt dim ts))
  end.

End Tensors.

Arguments Tensor V : clear implicits.

(** ** The wrapped network

    What the notebook reads and writes of an [nn.Module]: its
    parameters, its [training] flag, and its sub-modules with the
    attributes set on them. *)

Section Network.

Context {V : Type} {ops : TorchOps V}.

Record Param : Type := mkParam {
  value : Tensor V;
  requires_grad : bool
}.

Inductive PyValue : Type :=
| PyBool (b : bool)
| PyStr (s : string)
| PyMethod (name : string).

(** A sub-module: the names of the classes it is an instance of (its
    method resolution order) and its instance attributes. *)
Record SubModule : Type := mkSubModule {
  mro : list string;
  attrs : list (string * PyValue)
}.

Record Net : Type := mkNet {
  parameters : list Param;
  training : bool;
  named_modules : list (string * SubModule)
}.

Definition isinstance (m : SubModule) (classes : list string) : bool :=
  existsb (fun c => existsb (String.eqb c) (mro m)) classes.

Fixpoint assoc_set (k : string) (v : PyValue) (l : list (string * PyValue))
  : list (string * PyValue) :=
  match l with
  | [] => [(k, v)]
  | (k', v') :: l' =>
      if String.eqb k k' then (k, v) :: l' else (k', v') :: assoc_set k v l'
  end.

Definition setattr (m : SubModule) (k : string) (v : PyValue) : SubModule :=
  mkSubModule (mro m) (assoc_set k v (attrs m)).

(** [copy.deepcopy]: values carry no identity, a copy is the value. *)
Definition deepcopy (n : Net) : Net := n.

(** [Module.to(device)] *)
Definition to (n : Net) (dv : Device) : Net :=
  mkNet
    (map (fun p =>
            mkParam
              (mkTensor (shape (value p)) (dtype (value p)) dv (data (value p)))
              (requires_grad p))
         (parameters n))
    (training n) (named_modules n).

(** [Module.eval()] *)
Definition eval (n : Net) : Net :=
  mkNet (parameters n) false (named_modules n).

(** [Module.float()]: floating-point parameters become [float32]. *)
Definition float (n : Net) : Net :=
  mkNet
    (map (fun p =>
            if is_floating_point (dtype (value p)) then
              mkParam
                (mkTensor (shape (value p)) float32 (device (value p))
                   (map (cast (dtype (value p)) float32) (data (value p))))
                (requires_grad p)
            else p)
         (parameters n))
    (training n) (named_modules n).

End Network.

Arguments Param V : clear implicits.
Arguments Net V : clear implicits.

(** The ultralytics side, outside this repository: loading the weights
    ([YOLO(weights).model]), [fuse()], its test [is_fused()], and the
    network's own forward pass.  A call of the network may raise, and
    may write to the network and to its argument: it returns the
    outcome together with both as they are afterwards. *)
Class Ultralytics (V : Type) : Type := {
  YOLO : string -> result (Net V);
  fuse : Net V -> Net V;
  is_fused : Net V -> bool;
  call : Net V -> Tensor V -> result (Tensor V * Tensor V) * (Net V * Tensor V)
}.

(** ** The notebook *)

Module Notebook.
Definition weights : string := "yolov8l-seg.pt".
Definition device : Device := cpu.
End Notebook.

Section WarpModel.

Context {V : Type} {ops : TorchOps V} {ext : Ultralytics V}.

Record WarpModel : Type := mkWarpModel {
  nc : Z;
  model : Net V
}.

Definition __init__ (weights : string) (nc : Z) : result WarpModel :=
  (m <- YOLO weights ;;
   let m := to (deepcopy m) Notebook.device in
   let m := mkNet
              (map (fun p => mkParam (value p) false) (parameters m))
              (training m) (named_modules m) in
   let m := eval m in
   let m := float m in
   let m := fuse m in
   let m := mkNet (parameters m) (training m)
              (map (fun km =>
                      let '(k, m) := km in
                      if isinstance m ["Detect"; "RTDETRDecoder"] then
                        let m := setattr m "dynamic" (PyBool false) in
                        let m := setattr m "export" (PyBool true) in
                        let m := setattr m "format" (PyStr "onnx") in
                        (k, m)
                      else if isinstance m ["C2f"] then
                        (k, setattr m "forward" (PyMethod "forward_split"))
                      else (k, m))
                   (named_modules m)) in
   Ok (mkWarpModel nc m))%py.

(** [forward] returns its outcome together with the wrapper and the
    argument as the call of the network leaves them; the rest of the
    body reads tensors and builds new ones. *)
Definition forward (self : WarpModel) (x : Tensor V)
  : result (Tensor V * Tensor V) * (WarpModel * Tensor V) :=
  let '(r, (m, x)) := call (model self) x in
  let self := mkWarpModel (nc self) m in
  (('(preds, protos) <- r ;;
    preds <- permute preds [0; 2; 1] ;;
    boxes <- getitem preds [full; full; mkSlice None (Some 4%Z)] ;;
    classes <- getitem preds [full; full; mkSlice (Some 4%Z) (Some (nc self + 4)%Z)] ;;
    masks <- getitem preds [full; full; mkSlice (Some (nc self + 4)%Z) None] ;;
    b <- shape_at boxes 0 ;;
    a <- shape_at boxes 1 ;;
    det <- cat [boxes;
                ones [b; a; 1] (device boxes) (dtype boxes);
                classes;
                masks] 2 ;;
    Ok (det, protos))%py,
   (self, x)).

End WarpModel.

Arguments WarpModel V : clear implicits.

(** ** Spec-side operations, written with the operations above *)

Section Observations.

Context {V : Type} {ops : TorchOps V}.

(** Channel [k] of a tensor removed: [cat((t[:, :, :k], t[:, :, k+1:]), 2)]. *)
Definition delete_channel (t : Tensor V) (k : nat) : result (Tensor V) :=
  (l <- getitem t [full; full; mkSlice None (Some (Z.of_nat k))] ;;
   r <- getitem t [full; full; mkSlice (Some (Z.of_nat k + 1)%Z) None] ;;
   cat [l; r] 2)%py.

(** The three slices [forward] takes of the permuted predictions. *)
Definition boxes_of (p : Tensor V) : result (Tensor V) :=
  getitem p [full; full; mkSlice None (Some 4%Z)].

Definition classes_of (nc : Z) (p : Tensor V) : result (Tensor V) :=
  getitem p [full; full; mkSlice (Some 4%Z) (Some (nc + 4)%Z)].

Definition masks_of (nc : Z) (p : Tensor V) : result (Tensor V) :=
  getitem p [full; full; mkSlice (Some (nc + 4)%Z) None].

(** Where the class scores end: the bound [nc + 4] as slicing a
    [C]-channel axis resolves it. *)
Definition class_end (nc : Z) (C : nat) : nat :=
  Z.to_nat (clamp (Z.of_nat C) (nc + 4)).

(** The data hold one element per index of the shape. *)
Definition well_formed (t : Tensor V) : Prop :=
  length (data t) = numel (shape t).

(** Size of the last of three axes. *)
Definition channels (t : Tensor V) : nat := nth 2 (shape t) 0.

(** A tensor fit for a concatenation along the last of three axes with
    leading sizes [B], [A], dtype [dt] and device [dv]. *)
Definition fits (B A : nat) (dt : DType) (dv : Device) (t : Tensor V) : Prop :=
  exists k, shape t = [B; A; k] /\ dtype t = dt /\ device t = dv.

End Observations.

(** ** The state of the wrapped network that the notebook sets up *)

Section Readiness.

Context {V : Type} {ops : TorchOps V} {ext : Ultralytics V}.

(** No parameter has [requires_grad]. *)
Definition frozen (n : Net V) : bool :=
  forallb (fun p => negb (requires_grad p)) (parameters n).

(** Every floating-point parameter is [float32]. *)
Definition in_float (n : Net V) : bool :=
  forallb (fun p =>
             match dtype (value p) with
             | float16 | bfloat16 | float64 => false
             | _ => true
             end)
          (parameters n).

Definition export_ready (n : Net V) : bool :=
  frozen n && negb (training n) && in_float n && is_fused n.

Definition classes_of_modules (n : Net V) : list (list string) :=
  map (fun km => mro (snd km)) (named_modules n).

(** The wrapper after [forward] was called on each of [xs] in turn. *)
Definition after_calls (self : WarpModel V) (xs : list (Tensor V)) : WarpModel V :=
  fold_left (fun s x => fst (snd (forward s x))) xs self.

End Readiness.

(** What the claims below take for granted of ultralytics and torch,
    none of it code of this repository.

    [fuse()] folds batch-norm layers into the convolutions before them:
    it keeps parameters frozen and [float32], leaves [training] alone,
    and makes [is_fused()] true; [is_fused()] counts layers by class. *)
Class FuseContract {V : Type} {ops : TorchOps V} (ext : Ultralytics V) : Prop := {
  fuse_frozen : forall n, frozen n = true -> frozen (fuse n) = true;
  fuse_in_float : forall n, in_float n = true -> in_float (fuse n) = true;
  fuse_training : forall n, training (fuse n) = training n;
  fuse_is_fused : forall n, is_fused (fuse n) = true;
  is_fused_by_class : forall n n',
    classes_of_modules n = classes_of_modules n' -> is_fused n = is_fused n'
}.

(** A forward pass of the network in [eval] mode writes to neither its
    parameters, its [training] flag, its layers, nor its argument. *)
Class CallKeeps {V : Type} (ext : Ultralytics V) : Prop := {
  call_keeps_parameters : forall n x,
    parameters (fst (snd (call n x))) = parameters n;
  call_keeps_training : forall n x,
    training (fst (snd (call n x))) = training n;
  call_keeps_classes : forall n x,
    classes_of_modules (fst (snd (call n x))) = classes_of_modules n;
  call_keeps_argument : forall n x, snd (snd (call n x)) = x
}.

(** ** Reading the notebook's set-up and its last cell *)

Section Cell.

Context {V : Type} {ops : TorchOps V} {ext : Ultralytics V}.

Fixpoint assoc_get (k : string) (l : list (string * PyValue)) : option PyValue :=
  match l with
  | [] => None
  | (k', v') :: l' => if String.eqb k k' then Some v' else assoc_get k l'
  end.

(** An attribute set on the instance. *)
Definition getattr (m : SubModule) (k : string) : option PyValue :=
  assoc_get k (attrs m).

(** The body of the loop over [named_modules()] in [__init__], on one
    sub-module. *)
Definition configure (m : SubModule) : SubModule :=
  if isinstance m ["Detect"; "RTDETRDecoder"] then
    let m := setattr m "dynamic" (PyBool false) in
    let m := setattr m "export" (PyBool true) in
    let m := setattr m "format" (PyStr "onnx") in
    m
  else if isinstance m ["C2f"] then
    setattr m "forward" (PyMethod "forward_split")
  else m.

(** The network [__init__] has when it enters that loop: loaded, copied,
    moved to the device, frozen, in eval mode, cast to float, fused. *)
Definition before_export (n0 : Net V) : Net V :=
  let m := to (deepcopy n0) Notebook.device in
  let m := mkNet
             (map (fun p => mkParam (value p) false) (parameters m))
             (training m) (named_modules m) in
  fuse (float (eval m)).

(** The last cell: build the wrapper, call it on a batch, show the two
    shapes.  The batch is [torch.randn((4, 3, 640, 640))] in the
    notebook and an argument here. *)
Definition run_cell (x : Tensor V) : result (list nat * list nat) :=
  (model <- __init__ "yolov8l-seg.pt" 80 ;;
   out <- fst (forward model x) ;;
   Ok (shape (fst out), shape (snd out)))%py.

End Cell.

(** ** Reading one element *)

Section Elements.

Context {V : Type} {ops : TorchOps V}.

(** [t[idx]] as Python gives it: nothing ([IndexError]) for an index
    outside the shape, and nothing where the data stop short of it. *)
Definition get (t : Tensor V) (idx : list nat) : option V :=
  if in_range idx (shape t) then nth_error (data t) (offset (shape t) idx)
  else None.

End Elements.

(** ** The body of [forward] on values

    What [forward] does to the predictions once the network has
    returned, as one function of [self.nc] and the predictions. *)

Section Detections.

Context {V : Type} {ops : TorchOps V}.

Definition detections (nc : Z) (preds : Tensor V) : result (Tensor V) :=
  (preds <- permute preds [0; 2; 1] ;;
   boxes <- getitem preds [full; full; mkSlice None (Some 4%Z)] ;;
   classes <- getitem preds [full; full; mkSlice (Some 4%Z) (Some (nc + 4)%Z)] ;;
   masks <- getitem preds [full; full; mkSlice (Some (nc + 4)%Z) None] ;;
   b <- shape_at boxes 0 ;;
   a <- shape_at boxes 1 ;;
   cat [boxes;
        ones [b; a; 1] (device boxes) (dtype boxes);
        classes;
        masks] 2)%py.

(** The outcome of [forward] from the outcome of the network. *)
Definition assemble (nc : Z) (r : result (Tensor V * Tensor V))
  : result (Tensor V * Tensor V) :=
  ('(preds, protos) <- r ;;
   det <- detections nc preds ;;
   Ok (det, protos))%py.

End Detections.

(** ** Tensors as torch keeps them: views on shared storage

    A second embedding of [forward], on a store.  A tensor object is a
    view: a storage, an offset into it, sizes and strides.  [permute]
    and slicing make a new view on the same storage; [torch.ones] and
    [torch.cat] allocate a storage and fill it.  The wrapper object
    (its [nc] and its network) and the network's parameters live in
    the same world, and the call of the network may write anywhere. *)

Module Mem.

Section Views.

Context {V : Type} {ops : TorchOps V}.

(** The storages allocated so far; storage [l] is the [l]-th. *)
Definition Store : Type := list (list V).

Record View : Type := mkView {
  storage : nat;
  base : nat;
  sizes : list nat;
  strides : list nat;
  vdtype : DType;
  vdevice : Device
}.

Fixpoint dot (idx st : list nat) : nat :=
  match idx, st with
  | i :: idx', k :: st' => i * k + dot idx' st'
  | _, _ => 0
  end.

(** The element of a view at [idx], read from the store. *)
Definition read (h : Store) (t : View) (idx : list nat) : V :=
  nth (base t + dot idx (strides t)) (nth (storage t) h []) one.

(** The value a view has in a store. *)
Definition load (h : Store) (t : View) : Tensor V :=
  tabulate (sizes t) (vdtype t) (vdevice t) (read h t).

(** The view refers to a storage of the store, with one stride per
    axis. *)
Definition allocated (h : Store) (t : View) : Prop :=
  storage t < length h /\ length (strides t) = length (sizes t).

(** Strides of a tensor laid out row by row. *)
Fixpoint row_major (s : list nat) : list nat :=
  match s with
  | [] => []
  | _ :: s' => numel s' :: row_major s'
  end.

(** The view is a whole storage, laid out row by row: a tensor of its
    own, as an allocation returns it. *)
Definition fills (h : Store) (t : View) : Prop :=
  base t = 0 /\
  strides t = row_major (sizes t) /\
  length (nth (storage t) h []) = numel (sizes t).

Definition permute (t : View) (dims : list nat) : result View :=
  if negb (Nat.eqb (length dims) (length (sizes t))) then
    Raise (RuntimeError "permute: number of dims does not match")
  else if negb (is_permutation dims) then
    Raise (RuntimeError "permute: repeated or out-of-range dim")
  else
    Ok (mkView (storage t) (base t)
          (map (fun d => nth d (sizes t) 0) dims)
          (map (fun d => nth d (strides t) 0) dims)
          (vdtype t) (vdevice t)).

Definition getitem (t : View) (sl : list slice) : result View :=
  if length (sizes t) <? length sl then
    Raise (IndexError "too many indices for tensor")
  else
    Ok (mkView (storage t)
          (base t + dot (slice_starts sl (sizes t)) (strides t))
          (slice_shape sl (sizes t)) (strides t)
          (vdtype t) (vdevice t)).

Definition shape_at (t : View) (i : nat) : result nat :=
  match nth_error (sizes t) i with
  | Some n => Ok n
  | None => Raise (IndexError "tuple index out of range")
  end.

(** The element of a concatenation at [idx], read through the views. *)
Fixpoint select (h : Store) (dt : DType) (dim : nat) (ts : list View)
  (idx : list nat) : V :=
  match ts with
  | [] => one
  | t :: ts' =>
      let i := nth dim idx 0 in
      let n := nth dim (sizes t) 0 in
      if i <? n then cast (vdtype t) dt (read h t idx)
      else select h dt dim ts' (set_nth dim (i - n) idx)
  end.

(** A view fit for a concatenation along the last of three axes. *)
Definition fits (B A : nat) (dt : DType) (dv : Device) (t : View) : Prop :=
  exists k, sizes t = [B; A; k] /\ vdtype t = dt /\ vdevice t = dv.

(** The network as an object: views of its parameters, its [training]
    flag and its sub-modules. *)
Record Network : Type := mkNetwork {
  net_params : list View;
  net_training : bool;
  net_modules : list (string * SubModule)
}.

(** Everything a call of [forward] can reach: the store and the
    wrapper object with its two fields. *)
Record World : Type := mkWorld {
  store : Store;
  self_nc : Z;
  self_model : Network
}.

(** A computation that may raise and may change the world. *)
Definition M (A : Type) : Type := World -> result A * World.

Definition ret {A : Type} (a : A) : M A := fun w => (Ok a, w).

Definition pure {A : Type} (r : result A) : M A := fun w => (r, w).

Definition mbind {A B : Type} (c : M A) (k : A -> M B) : M B :=
  fun w =>
    match c w with
    | (Ok a, w') => k a w'
    | (Raise e, w') => (Raise e, w')
    end.

(** [self.nc] *)
Definition get_nc : M Z := fun w => (Ok (self_nc w), w).

(** [torch.ones]: a fresh storage filled with 1. *)
Definition ones (size : list nat) (dv : Device) (dt : DType) : M View :=
  fun w =>
    (Ok (mkView (length (store w)) 0 size (row_major size) dt dv),
     mkWorld (store w ++ [repeat one (numel size)]) (self_nc w) (self_model w)).

(** [torch.cat]: the same checks as on values, then a fresh storage
    filled with the elements read through the views. *)
Definition cat (ts : list View) (dim : nat) : M View :=
  fun w =>
    match ts with
    | [] =>
        (Raise (RuntimeError "torch.cat(): expected a non-empty list of Tensors"), w)
    | t0 :: rest =>
        if negb (dim <? length (sizes t0)) then
          (Raise (IndexError "Dimension out of range"), w)
        else if negb (forallb (fun t => same_but dim (sizes t0) (sizes t)) rest) then
          (Raise (RuntimeError
                    "Sizes of tensors must match except in the cat dimension"), w)
        else if negb (forallb (fun t => Device_eqb (vdevice t0) (vdevice t)) rest) then
          (Raise (RuntimeError "Expected all tensors to be on the same device"), w)
        else
          let dt := fold_left promote_types (map vdtype rest) (vdtype t0) in
          let total := fold_right Nat.add 0 (map (fun t => nth dim (sizes t) 0) ts) in
          let s := set_nth dim total (sizes t0) in
          (Ok (mkView (length (store w)) 0 s (row_major s) dt (vdevice t0)),
           mkWorld (store w ++ [build s (select (store w) dt dim ts)])
             (self_nc w) (self_model w))
    end.

(** [w'] is [w] with storages added: same wrapper fields, and every
    storage of [w] as it was. *)
Definition extends (w w' : World) : Prop :=
  self_nc w' = self_nc w /\
  self_model w' = self_model w /\
  exists fresh, store w' = store w ++ fresh.

(** A computation that only adds storages. *)
Definition frames {A : Type} (c : M A) : Prop :=
  forall w, extends w (snd (c w)).

(** A computation that adds at most [k] storages. *)
Definition allocates {A : Type} (k : nat) (c : M A) : Prop :=
  forall w, exists fresh,
    store (snd (c w)) = store w ++ fresh /\ length fresh <= k.

End Views.

Arguments Store V : clear implicits.
Arguments World V : clear implicits.
Arguments M V A : clear implicits.

(** The network's own forward pass on the store, outside this
    repository: it may raise, allocate, and write to any storage and
    to the network object; it returns two views. *)
Class Library (V : Type) : Type := {
  pass : Network -> Store V -> View ->
         result (View * View) * (Network * Store V)
}.

Declare Scope mem_scope.
Delimit Scope mem_scope with mem.
Notation "x <- c ;; k" := (mbind c (fun x => k))
  (at level 61, c at next level, right associativity) : mem_scope.
Notation "' pat <- c ;; k" := (mbind c (fun x => match x with pat => k end))
  (at level 61, pat pattern, c at next level, right associativity) : mem_scope.

Section Wrapper.

Context {V : Type} {ops : TorchOps V} {lib : Library V}.

(** [self.model(x)] *)
Definition call_model (x : View) : M V (View * View) :=
  fun w =>
    let '(r, (m, h)) := pass (self_model w) (store w) x in
    (r, mkWorld h (self_nc w) m).

Definition forward (x : View) : M V (View * View) :=
  ('(preds, protos) <- call_model x ;;
   preds <- pure (permute preds [0; 2; 1]) ;;
   boxes <- pure (getitem preds [full; full; mkSlice None (Some 4%Z)]) ;;
   nc <- get_nc ;;
   classes <- pure (getitem preds [full; full; mkSlice (Some 4%Z) (Some (nc + 4)%Z)]) ;;
   nc <- get_nc ;;
   masks <- pure (getitem preds [full; full; mkSlice (Some (nc + 4)%Z) None]) ;;
   b <- pure (shape_at boxes 0) ;;
   a <- pure (shape_at boxes 1) ;;
   o <- ones [b; a; 1] (vdevice boxes) (vdtype boxes) ;;
   det <- cat [boxes; o; classes; masks] 2 ;;
   ret (det, protos))%mem.

(** What the outcome of a computation is worth: the values of the two
    views in the world it leaves. *)
Definition outcome (c : result (View * View) * World V)
  : result (Tensor V * Tensor V) :=
  match fst c with
  | Ok (t, u) => Ok (load (store (snd c)) t, load (store (snd c)) u)
  | Raise e => Raise e
  end.

(** The world after [forward] was called on each of [xs] in turn. *)
Definition after_calls (w : World V) (xs : list View) : World V :=
  fold_left (fun w x => snd (forward x w)) xs w.

(** The values of the network's parameters. *)
Definition weights (w : World V) : list (Tensor V) :=
  map (load (store w)) (net_params (self_model w)).

(** What [__init__] sets up in the network: the sub-modules by name
    and class, with the four attributes it writes. *)
Definition setup (n : Network)
  : list (string * list string * list (option PyValue)) :=
  map (fun km =>
         (fst km, mro (snd km),
          map (getattr (snd km)) ["dynamic"; "export"; "format"; "forward"]))
      (net_modules n).

(** Two worlds hold the same network as far as a pass can tell: equal
    parameter values, [training] flag and set-up.  The storages, the
    places of the parameters in them and the other attributes of the
    sub-modules may differ. *)
Definition same_network (w w' : World V) : Prop :=
  weights w' = weights w /\
  net_training (self_model w') = net_training (self_model w) /\
  setup (self_model w') = setup (self_model w).

End Wrapper.

(** What the claims on the store take for granted of the network's
    pass, none of it code of this repository.  In [eval] mode, on
    frozen parameters, a pass returns tensors that exist; it writes to
    no tensor that existed before it (its parameters and its argument
    among them), and keeps the list of parameters, the [training] flag
    and the set-up, while it may leave other attributes on the
    sub-modules (a detection head caches its anchors); and what it
    returns is a function of the values of the parameters, of the
    [training] flag, of the set-up and of the value of the argument. *)
Class PassContract {V : Type} {ops : TorchOps V} (lib : Library V) : Prop := {
  pass_returns : forall (w : World V) x p q,
    fst (call_model x w) = Ok (p, q) ->
    allocated (store (snd (call_model x w))) p /\
    allocated (store (snd (call_model x w))) q;
  pass_keeps : forall (w : World V) x t,
    allocated (store w) t ->
    allocated (store (snd (call_model x w))) t /\
    load (store (snd (call_model x w))) t = load (store w) t;
  pass_keeps_params : forall (w : World V) x,
    net_params (self_model (snd (call_model x w))) = net_params (self_model w);
  pass_keeps_training : forall (w : World V) x,
    net_training (self_model (snd (call_model x w)))
    = net_training (self_model w);
  pass_keeps_setup : forall (w : World V) x,
    setup (self_model (snd (call_model x w))) = setup (self_model w);
  pass_function : forall (w w' : World V) x x',
    same_network w w' ->
    load (store w') x' = load (store w) x ->
    outcome (call_model x' w') = outcome (call_model x w)
}.

End Mem.

(** ** A small network to run the definitions on

    Scalars are integers.  The network holds two parameters and
    returns them as predictions and prototypes, whatever the images
    are, provided the batch has four axes; [fuse] drops batch-norm
    layers. *)

Module Demo.

#[global] Instance ops : TorchOps Z := {|
  one := 1%Z;
  promote_types := fun a _ => a;
  cast := fun _ _ v => v
|}.

(** Elements 10, 11, 12, ... so that no datum is the constant 1. *)
Definition iota (s : list nat) : list Z := map Z.of_nat (seq 10 (numel s)).

Definition tensor (s : list nat) : Tensor Z := mkTensor s float32 cpu (iota s).

Definition zeros (s : list nat) : Tensor Z :=
  mkTensor s float32 cpu (repeat 0%Z (numel s)).

Definition is_batchnorm (km : string * SubModule) : bool :=
  isinstance (snd km) ["BatchNorm2d"].

Definition net_call (n : Net Z) (x : Tensor Z)
  : result (Tensor Z * Tensor Z) * (Net Z * Tensor Z) :=
  match parameters n with
  | p :: q :: _ =>
      if Nat.eqb (ndim x) 4 then (Ok (value p, value q), (n, x))
      else (Raise (RuntimeError "expected a 4D input"), (n, x))
  | _ => (Raise (RuntimeError "no weights"), (n, x))
  end.

Definition net (preds protos : Tensor Z) : Net Z :=
  mkNet [mkParam preds true; mkParam protos true] true
    [("", mkSubModule ["SegmentationModel"; "Module"] []);
     ("model.0.conv", mkSubModule ["Conv2d"; "Module"] []);
     ("model.0.bn", mkSubModule ["BatchNorm2d"; "Module"] []);
     ("model.2", mkSubModule ["C2f"; "Module"] []);
     ("model.22", mkSubModule ["Segment"; "Detect"; "Module"] [("dynamic", PyBool true)])].

#[global] Instance ext : Ultralytics Z := {|
  YOLO := fun w =>
    if String.eqb w Notebook.weights then
      Ok (net (tensor [1; 7; 2]) (tensor [1; 2; 2; 2]))
    else Raise (PyExn "FileNotFoundError" w);
  fuse := fun n =>
    mkNet (parameters n) (training n)
      (filter (fun km => negb (is_batchnorm km)) (named_modules n));
  is_fused := fun n => forallb (fun km => negb (is_batchnorm km)) (named_modules n);
  call := net_call
|}.

(** A wrapper around the small network with the given outputs. *)
Definition wrapper (nc : Z) (preds protos : Tensor Z) : WarpModel Z :=
  mkWarpModel nc (net preds protos).

Definition images (B : nat) : Tensor Z := zeros [B; 3; 2; 2].

(** Predictions with 4 + 2 + 1 channels on 2 anchors, and predictions
    with only 3 channels. *)
Definition preds : Tensor Z := tensor [1; 7; 2].
Definition short_preds : Tensor Z := tensor [1; 3; 2].
Definition protos : Tensor Z := tensor [1; 2; 2; 2].
Definition x : Tensor Z := images 1.
Definition self : WarpModel Z := wrapper 2 preds protos.
Definition short_self : WarpModel Z := wrapper 80 short_preds protos.
Definition negative_self : WarpModel Z := wrapper (-2) preds protos.

(** The shapes of the notebook's run: a batch of 4 images. *)
Definition big_x : Tensor Z := zeros [4; 3; 640; 640].
Definition big_preds : Tensor Z := zeros [4; 116; 8400].
Definition big_protos : Tensor Z := zeros [4; 32; 160; 160].
Definition big_self : WarpModel Z := wrapper 80 big_preds big_protos.

(** Predictions of an empty batch, predictions with two axes only, and
    a wrapper whose negative [nc] counts from the end. *)
Definition empty_self : WarpModel Z := wrapper 2 (tensor [0; 7; 2]) protos.
Definition flat_self : WarpModel Z := wrapper 2 (tensor [7; 2]) protos.
Definition from_end_self : WarpModel Z := wrapper (-5) preds protos.

(** What [__init__] makes of the small network. *)
Definition head : SubModule :=
  mkSubModule ["Segment"; "Detect"; "Module"]
    [("dynamic", PyBool false); ("export", PyBool true); ("format", PyStr "onnx")].

Definition c2f : SubModule :=
  mkSubModule ["C2f"; "Module"] [("forward", PyMethod "forward_split")].

Definition ready : WarpModel Z :=
  mkWarpModel 80
    (mkNet [mkParam (tensor [1; 7; 2]) false; mkParam (tensor [1; 2; 2; 2]) false]
       false
       [("", mkSubModule ["SegmentationModel"; "Module"] []);
        ("model.0.conv", mkSubModule ["Conv2d"; "Module"] []);
        ("model.2", c2f);
        ("model.22", head)]).

(** The same library when the weights file is not there. *)
Definition no_weights : Ultralytics Z := {|
  YOLO := fun w => Raise (PyExn "FileNotFoundError" w);
  fuse := @fuse Z ext;
  is_fused := @is_fused Z ext;
  call := net_call
|}.

End Demo.

(** The small network on the store.  A pass copies its first two
    parameters into fresh storages and returns views of the copies as
    predictions and prototypes, provided the batch has four axes; it
    leaves a note on every sub-module, as a detection head caches its
    anchors. *)

Module MemDemo.

Definition copy (h : Mem.Store Z) (t : Mem.View) : list Z :=
  data (Mem.load h t).

Definition fresh_view (l : nat) (t : Mem.View) : Mem.View :=
  Mem.mkView l 0 (Mem.sizes t) (Mem.row_major (Mem.sizes t))
    (Mem.vdtype t) (Mem.vdevice t).

Definition note (n : Mem.Network) : Mem.Network :=
  Mem.mkNetwork (Mem.net_params n) (Mem.net_training n)
    (map (fun km => (fst km, setattr (snd km) "shape" (PyStr "cached")))
       (Mem.net_modules n)).

Definition net_pass (n : Mem.Network) (h : Mem.Store Z) (x : Mem.View)
  : result (Mem.View * Mem.View) * (Mem.Network * Mem.Store Z) :=
  match Mem.net_params n with
  | p :: q :: _ =>
      if Nat.eqb (length (Mem.sizes x)) 4 then
        (Ok (fresh_view (length h) p, fresh_view (S (length h)) q),
         (note n, h ++ [copy h p; copy h q]))
      else (Raise (RuntimeError "expected a 4D input"), (n, h))
  | _ => (Raise (RuntimeError "no weights"), (n, h))
  end.

#[global] Instance lib : Mem.Library Z := {| Mem.pass := net_pass |}.

(** A row-major tensor that fills storage [l]. *)
Definition row (l : nat) (s : list nat) : Mem.View :=
  Mem.mkView l 0 s (Mem.row_major s) float32 cpu.

Definition x : Mem.View := row 0 [1; 3; 2; 2].
Definition preds : Mem.View := row 1 [1; 7; 2].
Definition protos : Mem.View := row 2 [1; 2; 2; 2].

Definition network : Mem.Network :=
  Mem.mkNetwork [preds; protos] false
    [("model.2", Demo.c2f); ("model.22", Demo.head)].

(** The world before the first call: the batch, the two parameters,
    and a wrapper with [nc = 2]. *)
Definition world : Mem.World Z :=
  Mem.mkWorld
    [repeat 0%Z 12; Demo.iota [1; 7; 2]; Demo.iota [1; 2; 2; 2]]
    2 network.

(** Another batch with the same values, in a storage of its own, and a
    world that holds the same network at other places. *)
Definition x' : Mem.View := row 3 [1; 3; 2; 2].

Definition world' : Mem.World Z :=
  Mem.mkWorld
    [Demo.iota [1; 2; 2; 2]; [5%Z]; Demo.iota [1; 7; 2]; repeat 0%Z 12]
    2 (note (Mem.mkNetwork [row 2 [1; 7; 2]; row 0 [1; 2; 2; 2]] false
               [("model.2", Demo.c2f); ("model.22", Demo.head)])).

End MemDemo.

(** ** Facts about row-major tensors *)

(** Side conditions on sizes and indices of tabulated tensors. *)
Ltac idx_lia := cbn [nth shape tabulate ones]; lia.

Section TensorFacts.

Context {V : Type} {ops : TorchOps V}.

Lemma length_build (s : list nat) :
  forall f : list nat -> V, length (build s f) = numel s.
Proof.
  induction s as [|n s IH]; intros f; simpl; [reflexivity|].
  generalize 0 as a. induction n as [|n IHn]; intros a; simpl; [reflexivity|].
  rewrite length_app, IH, IHn. reflexivity.
Qed.

Lemma nth_flat_map_seq (g : nat -> list V) (m : nat) (d : V) :
  (forall j, length (g j) = m) ->
  forall n a i k, i < n -> k < m ->
  nth (i * m + k) (flat_map g (seq a n)) d = nth k (g (a + i)) d.
Proof.
  intros Hg. induction n as [|n IH]; intros a i k Hi Hk; [lia|].
  simpl. destruct i as [|i].
  - rewrite app_nth1 by (rewrite Hg; simpl; lia).
    simpl. now rewrite Nat.add_0_r.
  - rewrite app_nth2 by (rewrite Hg; simpl; lia).
    rewrite Hg.
    replace (S i * m + k - m) with (i * m + k) by (simpl; lia).
    rewrite IH by lia. f_equal. f_equal. lia.
Qed.

Lemma offset_lt (s : list nat) :
  forall idx, in_range idx s = true -> offset s idx < numel s.
Proof.
  induction s as [|n s IH]; intros [|i idx] H; simpl in *; try discriminate; [lia|].
  apply andb_true_iff in H as [Hi H]. apply Nat.ltb_lt in Hi.
  specialize (IH _ H). nia.
Qed.

Lemma nth_build (s : list nat) (d : V) :
  forall f idx, in_range idx s = true -> nth (offset s idx) (build s f) d = f idx.
Proof.
  induction s as [|n s IH]; intros f [|i idx] H; simpl in *; try discriminate.
  - reflexivity.
  - apply andb_true_iff in H as [Hi H]. apply Nat.ltb_lt in Hi.
    rewrite nth_flat_map_seq with (m := numel s).
    + simpl. now rewrite IH.
    + intros j. apply length_build.
    + exact Hi.
    + now apply offset_lt.
Qed.

Lemma item_tabulate (s : list nat) dt dv (f : list nat -> V) idx :
  in_range idx s = true -> item (tabulate s dt dv f) idx = f idx.
Proof. intros H. unfold item, tabulate. simpl. now apply nth_build. Qed.

Lemma flat_map_ext_in {A B : Type} (f g : A -> list B) (l : list A) :
  (forall a, In a l -> f a = g a) -> flat_map f l = flat_map g l.
Proof.
  induction l as [|a l IH]; intros H; simpl; [reflexivity|].
  rewrite H by now left. rewrite IH; [reflexivity|].
  intros b Hb. apply H. now right.
Qed.

Lemma build_ext (s : list nat) :
  forall f g : list nat -> V,
  (forall idx, in_range idx s = true -> f idx = g idx) ->
  build s f = build s g.
Proof.
  induction s as [|n s IH]; intros f g H; simpl.
  - now rewrite (H []).
  - apply flat_map_ext_in. intros i Hi. apply in_seq in Hi.
    apply IH. intros idx Hidx. apply H. simpl.
    rewrite Hidx, andb_true_r. apply Nat.ltb_lt. lia.
Qed.

Lemma tabulate_ext (s : list nat) dt dv (f g : list nat -> V) :
  (forall idx, in_range idx s = true -> f idx = g idx) ->
  tabulate s dt dv f = tabulate s dt dv g.
Proof. intros H. unfold tabulate. f_equal. now apply build_ext. Qed.

Lemma flat_map_repeat {A : Type} (l : list A) (n a : nat) :
  flat_map (fun _ => l) (seq a n) = concat (repeat l n).
Proof.
  revert a. induction n as [|n IH]; intros a; simpl; [reflexivity|].
  now rewrite IH.
Qed.

Lemma concat_repeat_repeat {A : Type} (v : A) (m n : nat) :
  concat (repeat (repeat v m) n) = repeat v (n * m).
Proof.
  induction n as [|n IH]; simpl; [reflexivity|].
  now rewrite IH, repeat_app.
Qed.

(** The data of a tensor filled with one value. *)
Lemma build_const (s : list nat) (v : V) :
  build s (fun _ => v) = repeat v (numel s).
Proof.
  induction s as [|n s IH]; simpl; [reflexivity|].
  rewrite (flat_map_ext_in _ (fun _ => repeat v (numel s)))
    by (intros i _; apply IH).
  now rewrite flat_map_repeat, concat_repeat_repeat.
Qed.

(** Within the shape of a tensor that holds one element per index,
    reading finds the element. *)
Lemma get_item (t : Tensor V) (idx : list nat) :
  well_formed t -> in_range idx (shape t) = true -> get t idx = Some (item t idx).
Proof.
  intros Hwf Hin. unfold get, item. rewrite Hin.
  apply nth_error_nth'. rewrite Hwf. now apply offset_lt.
Qed.

Lemma in_range3 b a c B A C :
  in_range [b; a; c] [B; A; C] = true <-> b < B /\ a < A /\ c < C.
Proof.
  simpl. rewrite !andb_true_iff, !Nat.ltb_lt. tauto.
Qed.

Lemma in_range3_inv idx B A C :
  in_range idx [B; A; C] = true ->
  exists b a c, idx = [b; a; c] /\ b < B /\ a < A /\ c < C.
Proof.
  destruct idx as [|b [|a [|c [|? ?]]]]; simpl; try discriminate;
    try (rewrite ?andb_false_r; discriminate).
  intros H. exists b, a, c. split; [reflexivity|].
  now apply (in_range3 b a c B A C).
Qed.

End TensorFacts.

(** ** The operations on three-axis tensors *)

Section Operations3.

Context {V : Type} {ops : TorchOps V} {laws : TorchLaws ops}.

Lemma permute_021 (t : Tensor V) B C A :
  shape t = [B; C; A] ->
  permute t [0; 2; 1] =
  Ok (tabulate [B; A; C] (dtype t) (device t)
        (fun idx => item t (unpermute [0; 2; 1] idx))).
Proof.
  intros Hs. unfold permute, ndim. rewrite Hs. reflexivity.
Qed.

Lemma getitem_last (t : Tensor V) (s : slice) B A C :
  shape t = [B; A; C] ->
  getitem t [full; full; s] =
  Ok (tabulate [B; A; slice_len s C] (dtype t) (device t)
        (fun idx => item t (add_index [0; 0; slice_start s C] idx))).
Proof.
  intros Hs. unfold getitem, ndim. rewrite Hs. simpl.
  unfold slice_len at 1 2. simpl. now rewrite !Nat.sub_0_r.
Qed.

Lemma Device_eqb_refl (d : Device) : Device_eqb d d = true.
Proof. destruct d; simpl; [reflexivity|apply Nat.eqb_refl]. Qed.

Lemma fold_promote_same dt (ts : list (Tensor V)) :
  Forall (fun t => dtype t = dt) ts ->
  fold_left promote_types (map dtype ts) dt = dt.
Proof.
  induction 1 as [|t ts Ht _ IH]; simpl; [reflexivity|].
  now rewrite Ht, promote_types_same.
Qed.

Lemma cat_last B A dt dv (t0 : Tensor V) (rest : list (Tensor V)) :
  Forall (fits B A dt dv) (t0 :: rest) ->
  cat (t0 :: rest) 2 =
  Ok (tabulate [B; A; fold_right Nat.add 0 (map channels (t0 :: rest))] dt dv
        (select dt 2 (t0 :: rest))).
Proof.
  intros H. inversion H as [|? ? (k0 & Hs0 & Hd0 & Hv0) Hrest]; subst.
  pose proof (proj1 (Forall_forall _ _) Hrest) as Hin.
  unfold cat, ndim. rewrite Hs0. simpl.
  replace (forallb _ rest) with true.
  2:{ symmetry. apply forallb_forall. intros t Ht.
      destruct (Hin _ Ht) as (k & Hs & _).
      rewrite Hs. unfold same_but. simpl. now rewrite !Nat.eqb_refl. }
  replace (forallb _ rest) with true.
  2:{ symmetry. apply forallb_forall. intros t Ht.
      destruct (Hin _ Ht) as (k & _ & _ & Hv).
      rewrite Hv. apply Device_eqb_refl. }
  simpl. rewrite fold_promote_same.
  - reflexivity.
  - eapply Forall_impl; [|exact Hrest]. intros t (k & _ & Hd & _). exact Hd.
Qed.

Lemma fits_tabulate B A k dt dv (f : list nat -> V) :
  fits B A dt dv (tabulate [B; A; k] dt dv f).
Proof. exists k. now simpl. Qed.

End Operations3.

(** ** Bounds of the three slices *)

Section SliceBounds.

Lemma class_end_le nc C : class_end nc C <= C.
Proof.
  unfold class_end, clamp. destruct (nc + 4 <? 0)%Z eqn:E; lia.
Qed.

Lemma class_end_nonneg nc C : (0 <= nc)%Z -> class_end nc C = Nat.min (Z.to_nat nc + 4) C.
Proof.
  intros H. unfold class_end, clamp.
  destruct (nc + 4 <? 0)%Z eqn:E; [apply Z.ltb_lt in E; lia|lia].
Qed.

Lemma class_end_short nc C : (Z.of_nat C < nc + 4)%Z -> class_end nc C = C.
Proof.
  intros H. unfold class_end, clamp.
  destruct (nc + 4 <? 0)%Z eqn:E; [apply Z.ltb_lt in E; lia|lia].
Qed.

Lemma boxes_len C : slice_len (mkSlice None (Some 4%Z)) C = Nat.min 4 C.
Proof.
  unfold slice_len, slice_stop, slice_start, clamp. cbn [start stop].
  change (4 <? 0)%Z with false. cbv iota. lia.
Qed.

Lemma classes_start C stop : slice_start (mkSlice (Some 4%Z) stop) C = Nat.min 4 C.
Proof.
  unfold slice_start, clamp. cbn [start].
  change (4 <? 0)%Z with false. cbv iota. lia.
Qed.

Lemma classes_len nc C :
  slice_len (mkSlice (Some 4%Z) (Some (nc + 4)%Z)) C = class_end nc C - Nat.min 4 C.
Proof. unfold slice_len. now rewrite classes_start. Qed.

Lemma masks_len nc C :
  slice_len (mkSlice (Some (nc + 4)%Z) None) C = C - class_end nc C.
Proof. reflexivity. Qed.

End SliceBounds.

(** ** What [forward] computes *)

Section ForwardFacts.

Context {V : Type} {ops : TorchOps V} {laws : TorchLaws ops} {ext : Ultralytics V}.

Lemma select_here dt dim (t : Tensor V) ts idx :
  nth dim idx 0 < nth dim (shape t) 0 ->
  select dt dim (t :: ts) idx = cast (dtype t) dt (item t idx).
Proof.
  intros H. simpl. apply Nat.ltb_lt in H. now rewrite H.
Qed.

Lemma select_next dt dim (t : Tensor V) ts idx :
  nth dim (shape t) 0 <= nth dim idx 0 ->
  select dt dim (t :: ts) idx =
  select dt dim ts (set_nth dim (nth dim idx 0 - nth dim (shape t) 0) idx).
Proof.
  intros H. simpl. apply Nat.ltb_ge in H. now rewrite H.
Qed.

(** An element of a last-axis slice of the permuted predictions. *)
Lemma item_slice_permuted (preds : Tensor V) B C A n lo dt dv b a j :
  shape preds = [B; C; A] ->
  b < B -> a < A -> j < n -> lo + j < C ->
  item (tabulate [B; A; n] dt dv
          (fun idx =>
             item (tabulate [B; A; C] dt dv
                     (fun idx' => item preds (unpermute [0; 2; 1] idx')))
                  (add_index [0; 0; lo] idx)))
       [b; a; j]
  = item preds [b; lo + j; a].
Proof.
  intros Hs Hb Ha Hj Hlo.
  rewrite item_tabulate by (apply in_range3; auto).
  simpl add_index.
  rewrite item_tabulate by (apply in_range3; auto).
  reflexivity.
Qed.

(** The state [forward] leaves is the state the call of the network
    leaves, with [self.nc] as it was. *)
Lemma forward_state (self : WarpModel V) (x : Tensor V) :
  snd (forward self x) =
  (mkWarpModel (nc self) (fst (snd (call (model self) x))),
   snd (snd (call (model self) x))).
Proof.
  unfold forward. destruct (call (model self) x) as [r [m x']]. reflexivity.
Qed.

Lemma forward_raise (self : WarpModel V) (x : Tensor V) e :
  fst (call (model self) x) = Raise e -> fst (forward self x) = Raise e.
Proof.
  unfold forward. destruct (call (model self) x) as [r [m x']]. simpl.
  intros ->. reflexivity.
Qed.

(** The outcome of [forward] when the network returns predictions with
    three axes: the detections, element by element. *)
Lemma forward_run (self : WarpModel V) (x : Tensor V) preds protos B C A :
  fst (call (model self) x) = Ok (preds, protos) ->
  shape preds = [B; C; A] ->
  let nb := Nat.min 4 C in
  let k := class_end (nc self) C in
  exists det,
    fst (forward self x) = Ok (det, protos) /\
    shape det = [B; A; nb + (1 + ((k - nb) + ((C - k) + 0)))] /\
    dtype det = dtype preds /\
    device det = device preds /\
    forall b a, b < B -> a < A ->
      (forall c, c < nb -> item det [b; a; c] = item preds [b; c; a]) /\
      item det [b; a; nb] = one /\
      (forall j, j < k - nb ->
         item det [b; a; nb + 1 + j] = item preds [b; nb + j; a]) /\
      (forall j, j < C - k ->
         item det [b; a; nb + 1 + (k - nb) + j] = item preds [b; k + j; a]).
Proof.
  intros Hcall Hs nb k.
  unfold forward. destruct (call (model self) x) as [r [m x']].
  simpl in Hcall. subst r. cbn [fst bind nc].
  rewrite (permute_021 _ B C A Hs). cbn [bind].
  rewrite !(getitem_last _ _ B A C) by reflexivity.
  cbn [bind shape_at shape tabulate nth_error device dtype].
  rewrite boxes_len, classes_len, masks_len, classes_start.
  fold nb. fold k.
  change (slice_start {| start := None; stop := Some 4%Z |} C) with 0.
  change (slice_start {| start := Some (nc self + 4)%Z; stop := None |} C) with k.
  erewrite cat_last by (repeat constructor; apply fits_tabulate).
  cbn [bind fold_right map channels nth shape tabulate ones]. eexists. split; [reflexivity|].
  split; [reflexivity|]. split; [reflexivity|]. split; [reflexivity|].
  pose proof (class_end_le (nc self) C) as Hk. fold k in Hk.
  assert (Hnb : nb <= C) by apply Nat.le_min_r.
  clearbody nb k.
  intros b a Hb Ha.
  repeat split.
  - intros c Hc.
    rewrite item_tabulate by (apply in_range3; lia).
    rewrite select_here by idx_lia.
    cbn [dtype tabulate]. rewrite cast_same.
    rewrite (item_slice_permuted preds B C A _ 0) by (auto; lia).
    reflexivity.
  - rewrite item_tabulate by (apply in_range3; lia).
    rewrite select_next by idx_lia.
    cbn [nth shape tabulate set_nth]. rewrite Nat.sub_diag.
    rewrite select_here by idx_lia.
    cbn [dtype tabulate ones]. rewrite cast_same.
    unfold ones. rewrite item_tabulate by (apply in_range3; lia).
    reflexivity.
  - intros j Hj.
    rewrite item_tabulate by (apply in_range3; lia).
    rewrite select_next by idx_lia.
    cbn [nth shape tabulate set_nth].
    rewrite select_next by idx_lia.
    cbn [nth shape tabulate set_nth ones].
    replace (nb + 1 + j - nb - 1) with j by lia.
    rewrite select_here by idx_lia.
    cbn [dtype tabulate]. rewrite cast_same.
    rewrite (item_slice_permuted preds B C A _ nb) by (auto; lia).
    reflexivity.
  - intros j Hj.
    rewrite item_tabulate by (apply in_range3; lia).
    rewrite select_next by idx_lia.
    cbn [nth shape tabulate set_nth].
    rewrite select_next by idx_lia.
    cbn [nth shape tabulate set_nth ones].
    rewrite select_next by idx_lia.
    cbn [nth shape tabulate set_nth].
    replace (nb + 1 + (k - nb) + j - nb - 1 - (k - nb)) with j by lia.
    rewrite select_here by idx_lia.
    cbn [dtype tabulate]. rewrite cast_same.
    rewrite (item_slice_permuted preds B C A _ k) by (auto; lia).
    reflexivity.
Qed.

End ForwardFacts.

(** ** The steps of [forward] and the layout of its detections *)

Section ForwardLayout.

Context {V : Type} {ops : TorchOps V} {laws : TorchLaws ops} {ext : Ultralytics V}.

Lemma class_end_ge nc C :
  (0 <= nc)%Z \/ (Z.of_nat C < nc + 4)%Z -> Nat.min 4 C <= class_end nc C.
Proof.
  intros [H|H].
  - rewrite class_end_nonneg by exact H. lia.
  - rewrite class_end_short by exact H. lia.
Qed.

Lemma rank3 (t : Tensor V) :
  ndim t = 3 -> exists B C A, shape t = [B; C; A].
Proof.
  unfold ndim. destruct (shape t) as [|B [|C [|A [|? ?]]]]; simpl; try discriminate.
  intros _. now exists B, C, A.
Qed.

(** Every step of the body succeeds on predictions with three axes. *)
Lemma forward_steps (self : WarpModel V) (x : Tensor V) preds protos B C A :
  fst (call (model self) x) = Ok (preds, protos) ->
  shape preds = [B; C; A] ->
  exists P boxes classes masks,
    permute preds [0; 2; 1] = Ok P /\
    boxes_of P = Ok boxes /\
    classes_of (nc self) P = Ok classes /\
    masks_of (nc self) P = Ok masks /\
    shape P = [B; A; C] /\
    fits B A (dtype preds) (device preds) boxes /\
    fits B A (dtype preds) (device preds) classes /\
    fits B A (dtype preds) (device preds) masks /\
    channels boxes = Nat.min 4 C /\
    channels classes = class_end (nc self) C - Nat.min 4 C /\
    channels masks = C - class_end (nc self) C /\
    fst (forward self x) =
    bind (cat [boxes; ones [B; A; 1] (device boxes) (dtype boxes); classes; masks] 2)
         (fun det => Ok (det, protos)).
Proof.
  intros Hcall Hs.
  unfold boxes_of, classes_of, masks_of.
  rewrite (permute_021 _ B C A Hs).
  eexists. eexists. eexists. eexists.
  split; [reflexivity|].
  split; [rewrite (getitem_last _ _ B A C) by reflexivity; reflexivity|].
  split; [rewrite (getitem_last _ _ B A C) by reflexivity; reflexivity|].
  split; [rewrite (getitem_last _ _ B A C) by reflexivity; reflexivity|].
  split; [reflexivity|].
  split; [apply fits_tabulate|].
  split; [apply fits_tabulate|].
  split; [apply fits_tabulate|].
  split; [apply boxes_len|].
  split; [apply classes_len|].
  split; [apply masks_len|].
  unfold forward. destruct (call (model self) x) as [r [m x']].
  simpl in Hcall. subst r. cbn [fst bind nc].
  rewrite (permute_021 _ B C A Hs). cbn [bind].
  rewrite !(getitem_last _ _ B A C) by reflexivity.
  reflexivity.
Qed.

(** When the class scores end at or after the boxes (as they do for
    [0 <= nc], and when there are fewer than [nc + 4] channels), the
    detections are the permuted predictions with one constant channel
    put in after the boxes. *)
Lemma forward_layout (self : WarpModel V) (x : Tensor V) preds protos B C A :
  fst (call (model self) x) = Ok (preds, protos) ->
  shape preds = [B; C; A] ->
  (0 <= nc self)%Z \/ (Z.of_nat C < nc self + 4)%Z ->
  exists det,
    fst (forward self x) = Ok (det, protos) /\
    shape det = [B; A; C + 1] /\
    dtype det = dtype preds /\
    device det = device preds /\
    forall b a, b < B -> a < A ->
      (forall c, c < Nat.min 4 C -> item det [b; a; c] = item preds [b; c; a]) /\
      item det [b; a; Nat.min 4 C] = one /\
      (forall c, Nat.min 4 C <= c < C -> item det [b; a; c + 1] = item preds [b; c; a]).
Proof.
  intros Hcall Hs Hnc.
  destruct (forward_run self x preds protos B C A Hcall Hs)
    as (det & Hf & Hshape & Hdt & Hdv & Hitems).
  pose proof (class_end_ge _ C Hnc) as Hge.
  pose proof (class_end_le (nc self) C) as Hle.
  exists det. split; [exact Hf|].
  split; [rewrite Hshape; f_equal; f_equal; f_equal; lia|].
  split; [exact Hdt|]. split; [exact Hdv|].
  intros b a Hb Ha. destruct (Hitems b a Hb Ha) as (H1 & H2 & H3 & H4).
  split; [exact H1|]. split; [exact H2|].
  intros c [Hlo Hhi].
  destruct (Nat.lt_ge_cases c (class_end (nc self) C)) as [Hc|Hc].
  - replace (c + 1) with (Nat.min 4 C + 1 + (c - Nat.min 4 C)) by lia.
    rewrite H3 by lia.
    now replace (Nat.min 4 C + (c - Nat.min 4 C)) with c by lia.
  - replace (c + 1)
      with (Nat.min 4 C + 1 + (class_end (nc self) C - Nat.min 4 C)
            + (c - class_end (nc self) C)) by lia.
    rewrite H4 by lia.
    now replace (class_end (nc self) C + (c - class_end (nc self) C)) with c by lia.
Qed.

Lemma forward_bad_rank (self : WarpModel V) (x : Tensor V) preds protos :
  fst (call (model self) x) = Ok (preds, protos) ->
  ndim preds <> 3 ->
  exists e, fst (forward self x) = Raise e.
Proof.
  intros Hcall Hr. unfold forward.
  destruct (call (model self) x) as [r [m x']]. simpl in Hcall. subst r.
  cbn [fst bind]. unfold permute. cbn [length].
  replace (Nat.eqb 3 (ndim preds)) with false
    by (symmetry; apply Nat.eqb_neq; congruence).
  cbn [negb bind]. eauto.
Qed.

(** The concatenation in [forward] gets four tensors that fit. *)
Lemma forward_cat (self : WarpModel V) (x : Tensor V) preds protos B C A :
  fst (call (model self) x) = Ok (preds, protos) ->
  shape preds = [B; C; A] ->
  exists P boxes classes masks det,
    permute preds [0; 2; 1] = Ok P /\
    boxes_of P = Ok boxes /\
    classes_of (nc self) P = Ok classes /\
    masks_of (nc self) P = Ok masks /\
    shape_at boxes 0 = Ok B /\
    shape_at boxes 1 = Ok A /\
    Forall (fits B A (dtype boxes) (device boxes))
      [boxes; ones [B; A; 1] (device boxes) (dtype boxes); classes; masks] /\
    channels boxes = Nat.min 4 C /\
    channels classes = class_end (nc self) C - Nat.min 4 C /\
    channels masks = C - class_end (nc self) C /\
    cat [boxes; ones [B; A; 1] (device boxes) (dtype boxes); classes; masks] 2
    = Ok det /\
    fst (forward self x) = Ok (det, protos).
Proof.
  intros Hcall Hs.
  destruct (forward_steps self x preds protos B C A Hcall Hs)
    as (P & boxes & classes & masks & HP & Hb & Hc & Hm & _
        & Fb & Fc & Fm & Cb & Cc & Cm & Hf).
  assert (Hdt : dtype boxes = dtype preds) by (destruct Fb as (? & _ & H & _); exact H).
  assert (Hdv : device boxes = device preds) by (destruct Fb as (? & _ & _ & H); exact H).
  assert (F : Forall (fits B A (dtype boxes) (device boxes))
                [boxes; ones [B; A; 1] (device boxes) (dtype boxes); classes; masks]).
  { rewrite Hdt, Hdv. repeat constructor; try assumption. apply fits_tabulate. }
  exists P, boxes, classes, masks.
  eexists. split; [exact HP|]. split; [exact Hb|]. split; [exact Hc|].
  split; [exact Hm|].
  destruct Fb as (kb & Sb & _).
  split; [unfold shape_at; rewrite Sb; reflexivity|].
  split; [unfold shape_at; rewrite Sb; reflexivity|].
  split; [exact F|]. split; [exact Cb|]. split; [exact Cc|]. split; [exact Cm|].
  rewrite Hf, (cat_last _ _ _ _ _ _ F). split; reflexivity.
Qed.

Lemma cat_well_formed (ts : list (Tensor V)) dim t :
  cat ts dim = Ok t -> well_formed t.
Proof.
  unfold cat. destruct ts as [|t0 rest]; [discriminate|].
  destruct (negb (dim <? ndim t0)); [discriminate|].
  destruct (negb (forallb _ rest)); [discriminate|].
  destruct (negb (forallb _ rest)); [discriminate|].
  intros H. injection H as <-. apply length_build.
Qed.

Lemma forward_ok_inv (self : WarpModel V) (x : Tensor V) det p :
  fst (forward self x) = Ok (det, p) ->
  exists preds, fst (call (model self) x) = Ok (preds, p) /\ ndim preds = 3.
Proof.
  intros H.
  destruct (fst (call (model self) x)) as [[preds protos]|e] eqn:Hcall.
  - destruct (Nat.eq_dec (ndim preds) 3) as [H3|H3].
    + destruct (rank3 _ H3) as (B & C & A & Hs).
      destruct (forward_run self x preds protos B C A Hcall Hs) as (det' & Hf & _).
      rewrite Hf in H. injection H as _ Hp. subst p. now exists preds.
    + destruct (forward_bad_rank self x preds protos Hcall H3) as (e & He).
      rewrite He in H. discriminate.
  - rewrite (forward_raise self x e Hcall) in H. discriminate.
Qed.

Lemma forward_well_formed (self : WarpModel V) (x : Tensor V) det p :
  fst (forward self x) = Ok (det, p) -> well_formed det.
Proof.
  intros H.
  destruct (forward_ok_inv self x det p H) as (preds & Hcall & H3).
  destruct (rank3 _ H3) as (B & C & A & Hs).
  destruct (forward_cat self x preds p B C A Hcall Hs)
    as (P & boxes & classes & masks & det' & _ & _ & _ & _ & _ & _
        & _ & _ & _ & _ & Hcat & Hf).
  rewrite Hf in H. injection H as ->.
  exact (cat_well_formed _ _ _ Hcat).
Qed.

End ForwardLayout.

(** ** The wrapped network across [__init__] and calls of [forward] *)

Section NetworkState.

Context {V : Type} {ops : TorchOps V} {ext : Ultralytics V}.

Lemma forallb_map_comp {A B : Type} (f : B -> bool) (g : A -> B) (l : list A) :
  forallb f (map g l) = forallb (fun a => f (g a)) l.
Proof. induction l as [|a l IH]; simpl; [reflexivity|now rewrite IH]. Qed.

Lemma forallb_pointwise {A : Type} (f g : A -> bool) (l : list A) :
  (forall a, f a = g a) -> forallb f l = forallb g l.
Proof.
  intros H. induction l as [|a l IH]; simpl; [reflexivity|now rewrite H, IH].
Qed.

Lemma frozen_ext (n n' : Net V) :
  parameters n = parameters n' -> frozen n = frozen n'.
Proof. unfold frozen. now intros ->. Qed.

Lemma in_float_ext (n n' : Net V) :
  parameters n = parameters n' -> in_float n = in_float n'.
Proof. unfold in_float. now intros ->. Qed.

(** The loop over [parameters()] freezes them all. *)
Lemma frozen_loop (n : Net V) :
  frozen (mkNet (map (fun p => mkParam (value p) false) (parameters n))
            (training n) (named_modules n)) = true.
Proof.
  unfold frozen. cbn [parameters]. rewrite forallb_map_comp. simpl.
  apply forallb_forall. reflexivity.
Qed.

Lemma frozen_eval (n : Net V) : frozen (eval n) = frozen n.
Proof. reflexivity. Qed.

Lemma frozen_float (n : Net V) : frozen (float n) = frozen n.
Proof.
  unfold frozen, float. cbn [parameters]. rewrite forallb_map_comp.
  apply forallb_pointwise. intros p.
  now destruct (is_floating_point (dtype (value p))).
Qed.

Lemma in_float_float (n : Net V) : in_float (float n) = true.
Proof.
  unfold in_float, float. cbn [parameters]. rewrite forallb_map_comp.
  apply forallb_forall. intros p _.
  destruct (dtype (value p)) eqn:E; cbn; rewrite ?E; reflexivity.
Qed.

(** Setting attributes leaves the class of a sub-module alone. *)
Lemma classes_export_loop (n : Net V) :
  classes_of_modules
    (mkNet (parameters n) (training n)
       (map (fun km : string * SubModule =>
               let '(k, m) := km in
               if isinstance m ["Detect"; "RTDETRDecoder"] then
                 let m := setattr m "dynamic" (PyBool false) in
                 let m := setattr m "export" (PyBool true) in
                 let m := setattr m "format" (PyStr "onnx") in
                 (k, m)
               else if isinstance m ["C2f"] then
                 (k, setattr m "forward" (PyMethod "forward_split"))
               else (k, m))
            (named_modules n)))
  = classes_of_modules n.
Proof.
  unfold classes_of_modules. cbn [named_modules]. rewrite map_map.
  apply map_ext. intros [k m].
  destruct (isinstance m ["Detect"; "RTDETRDecoder"]); [reflexivity|].
  now destruct (isinstance m ["C2f"]).
Qed.

Lemma init_total (weights : string) (n0 : Z) (n : Net V) :
  YOLO weights = Ok n -> exists self, __init__ weights n0 = Ok self.
Proof. intros H. unfold __init__. rewrite H. cbn [bind]. eauto. Qed.

Lemma init_ready (Hfuse : FuseContract ext) (weights : string) (n0 : Z)
  (self : WarpModel V) :
  __init__ weights n0 = Ok self ->
  nc self = n0 /\
  frozen (model self) = true /\
  training (model self) = false /\
  in_float (model self) = true /\
  is_fused (model self) = true.
Proof.
  unfold __init__. destruct (YOLO weights) as [n|e]; cbn [bind]; [|discriminate].
  intros H. injection H as <-. cbn [nc model].
  split; [reflexivity|].
  split.
  { match goal with
    | |- frozen (mkNet (parameters ?m) _ _) = true => change (frozen m = true)
    end.
    apply fuse_frozen. rewrite frozen_float, frozen_eval.
    apply (frozen_loop (to (deepcopy n) Notebook.device)). }
  split.
  { cbn [training]. rewrite fuse_training. reflexivity. }
  split.
  { match goal with
    | |- in_float (mkNet (parameters ?m) _ _) = true => change (in_float m = true)
    end.
    apply fuse_in_float, in_float_float. }
  erewrite is_fused_by_class by apply classes_export_loop.
  apply fuse_is_fused.
Qed.

(** One call of [forward] under [CallKeeps]. *)
Lemma forward_keeps (Hkeep : CallKeeps ext) (self : WarpModel V) (x : Tensor V) :
  let self' := fst (snd (forward self x)) in
  nc self' = nc self /\
  parameters (model self') = parameters (model self) /\
  training (model self') = training (model self) /\
  classes_of_modules (model self') = classes_of_modules (model self) /\
  snd (snd (forward self x)) = x.
Proof.
  rewrite forward_state. cbn [fst snd nc model].
  split; [reflexivity|].
  split; [apply call_keeps_parameters|].
  split; [apply call_keeps_training|].
  split; [apply call_keeps_classes|].
  apply call_keeps_argument.
Qed.

Lemma after_calls_keeps (Hkeep : CallKeeps ext) (xs : list (Tensor V)) :
  forall self : WarpModel V,
  nc (after_calls self xs) = nc self /\
  parameters (model (after_calls self xs)) = parameters (model self) /\
  training (model (after_calls self xs)) = training (model self) /\
  classes_of_modules (model (after_calls self xs)) = classes_of_modules (model self).
Proof.
  induction xs as [|x xs IH]; intros self; [now cbn|].
  cbn [after_calls fold_left].
  destruct (forward_keeps Hkeep self x) as (H1 & H2 & H3 & H4 & _).
  destruct (IH (fst (snd (forward self x)))) as (I1 & I2 & I3 & I4).
  unfold after_calls in *. cbv zeta in *.
  rewrite I1, I2, I3, I4. tauto.
Qed.

End NetworkState.

(** * The claims *)

Section Claims.

Context {V : Type} {ops : TorchOps V} {laws : TorchLaws ops} {ext : Ultralytics V}.

(** C1.  With [nc = 80], on a batch of shape (B, 3, 640, 640) for which
    the network returns predictions of shape (B, 4 + 80 + nm, 8400) and
    prototypes of shape (B, 32, 160, 160), [forward] returns detections
    of shape (B, 8400, 85 + nm), holding as many elements as that
    shape has indices, and prototypes of shape (B, 32, 160, 160); with
    [nm = 32] the detections have shape (B, 8400, 117). *)
Theorem C1_output_shapes (self : WarpModel V) (x preds protos : Tensor V) (B nm : nat) :
  nc self = 80%Z ->
  shape x = [B; 3; 640; 640] ->
  fst (call (model self) x) = Ok (preds, protos) ->
  shape preds = [B; 4 + 80 + nm; 8400] ->
  shape protos = [B; 32; 160; 160] ->
  exists det protos',
    fst (forward self x) = Ok (det, protos') /\
    shape det = [B; 8400; 85 + nm] /\
    well_formed det /\
    shape protos' = [B; 32; 160; 160] /\
    (nm = 32 -> shape det = [B; 8400; 117]).
Proof.
  intros Hnc _ Hcall Hs Hp.
  destruct (forward_layout self x preds protos _ _ _ Hcall Hs)
    as (det & Hf & Hshape & _); [left; lia|].
  exists det, protos. split; [exact Hf|].
  assert (E : shape det = [B; 8400; 85 + nm])
    by (rewrite Hshape; f_equal; f_equal; f_equal; lia).
  split; [exact E|].
  split; [exact (forward_well_formed self x det protos Hf)|].
  split; [exact Hp|].
  intros ->. exact E.
Qed.

(** C2.  When the network returns predictions with 4 + nc + nm
    channels, the last axis of the detections holds, in this order, the
    4 box coordinates, 1 constant channel, the nc class scores and the
    nm mask coefficients, each value being the one of the predictions. *)
Theorem C2_channel_layout (self : WarpModel V) (x preds protos : Tensor V)
  (B A n_c nm : nat) :
  nc self = Z.of_nat n_c ->
  fst (call (model self) x) = Ok (preds, protos) ->
  shape preds = [B; 4 + n_c + nm; A] ->
  exists det,
    fst (forward self x) = Ok (det, protos) /\
    shape det = [B; A; 4 + 1 + n_c + nm] /\
    forall b a, b < B -> a < A ->
      (forall i, i < 4 -> item det [b; a; i] = item preds [b; i; a]) /\
      item det [b; a; 4] = one /\
      (forall j, j < n_c ->
         item det [b; a; 5 + j] = item preds [b; 4 + j; a]) /\
      (forall k, k < nm ->
         item det [b; a; 5 + n_c + k] = item preds [b; 4 + n_c + k; a]).
Proof.
  intros Hnc Hcall Hs.
  destruct (forward_layout self x preds protos _ _ _ Hcall Hs)
    as (det & Hf & Hshape & _ & _ & Hitems); [left; lia|].
  replace (Nat.min 4 (4 + n_c + nm)) with 4 in Hitems by lia.
  exists det. split; [exact Hf|].
  split; [rewrite Hshape; f_equal; f_equal; f_equal; lia|].
  intros b a Hb Ha. destruct (Hitems b a Hb Ha) as (H1 & H2 & H3).
  split; [exact H1|]. split; [exact H2|]. split.
  - intros j Hj. replace (5 + j) with (4 + j + 1) by lia. apply H3. lia.
  - intros k Hk. replace (5 + n_c + k) with (4 + n_c + k + 1) by lia.
    apply H3. lia.
Qed.

(** C3, as amended.  For [0 <= nc] and predictions with three axes,
    concatenating the boxes, classes and masks slices along the last
    axis gives back the permuted predictions; when there are at least 4
    channels, deleting channel 4 of the detections gives exactly the
    permuted predictions as well. *)
Theorem C3_round_trip (self : WarpModel V) (x preds protos : Tensor V) (B C A : nat) :
  (0 <= nc self)%Z ->
  fst (call (model self) x) = Ok (preds, protos) ->
  shape preds = [B; C; A] ->
  exists det P boxes classes masks,
    fst (forward self x) = Ok (det, protos) /\
    permute preds [0; 2; 1] = Ok P /\
    boxes_of P = Ok boxes /\
    classes_of (nc self) P = Ok classes /\
    masks_of (nc self) P = Ok masks /\
    cat [boxes; classes; masks] 2 = Ok P /\
    (4 <= C -> delete_channel det 4 = Ok P).
Proof.
  intros Hnc Hcall Hs.
  destruct (forward_layout self x preds protos _ _ _ Hcall Hs (or_introl Hnc))
    as (det & Hf & Hshape & Hdt & Hdv & Hitems).
  pose proof (class_end_ge _ C (or_introl Hnc)) as Hge.
  pose proof (class_end_le (nc self) C) as Hle.
  exists det. unfold boxes_of, classes_of, masks_of.
  rewrite (permute_021 _ B C A Hs).
  eexists. eexists. eexists. eexists.
  split; [exact Hf|].
  split; [reflexivity|].
  split; [rewrite (getitem_last _ _ B A C) by reflexivity; reflexivity|].
  split; [rewrite (getitem_last _ _ B A C) by reflexivity; reflexivity|].
  split; [rewrite (getitem_last _ _ B A C) by reflexivity; reflexivity|].
  cbn [dtype device tabulate].
  rewrite boxes_len, classes_len, masks_len, classes_start.
  change (slice_start {| start := None; stop := Some 4%Z |} C) with 0.
  change (slice_start {| start := Some (nc self + 4)%Z; stop := None |} C)
    with (class_end (nc self) C).
  split.
  - erewrite cat_last by (repeat constructor; apply fits_tabulate).
    cbn [fold_right map channels nth shape tabulate].
    replace (Nat.min 4 C + (class_end (nc self) C - Nat.min 4 C
                            + (C - class_end (nc self) C + 0))) with C by lia.
    f_equal. apply tabulate_ext. intros idx Hidx.
    apply in_range3_inv in Hidx as (b & a & c & -> & Hb & Ha & Hc).
    destruct (Nat.lt_ge_cases c (Nat.min 4 C)) as [H1|H1].
    + rewrite select_here by idx_lia.
      cbn [dtype tabulate]. rewrite cast_same.
      rewrite (item_slice_permuted preds B C A _ 0) by (auto; lia).
      reflexivity.
    + rewrite select_next by idx_lia.
      cbn [nth shape tabulate set_nth].
      destruct (Nat.lt_ge_cases c (class_end (nc self) C)) as [H2|H2].
      * rewrite select_here by idx_lia.
        cbn [dtype tabulate]. rewrite cast_same.
        rewrite (item_slice_permuted preds B C A _ (Nat.min 4 C)) by (auto; lia).
        cbn [unpermute length seq map index_of Nat.eqb nth].
        now replace (Nat.min 4 C + (c - Nat.min 4 C)) with c by lia.
      * rewrite select_next by idx_lia.
        cbn [nth shape tabulate set_nth].
        rewrite select_here by idx_lia.
        cbn [dtype tabulate]. rewrite cast_same.
        rewrite (item_slice_permuted preds B C A _ (class_end (nc self) C))
          by (auto; lia).
        cbn [unpermute length seq map index_of Nat.eqb nth].
        now replace (class_end (nc self) C
                     + (c - Nat.min 4 C - (class_end (nc self) C - Nat.min 4 C)))
          with c by lia.
  - intros H4. unfold delete_channel.
    rewrite !(getitem_last _ _ B A (C + 1)) by exact Hshape.
    cbn [bind].
    erewrite cat_last by (repeat constructor; apply fits_tabulate).
    cbn [fold_right map channels nth shape tabulate].
    assert (E1 : slice_len {| start := None; stop := Some (Z.of_nat 4) |} (C + 1) = 4)
      by (unfold slice_len, slice_stop, slice_start, clamp; cbn [start stop];
          change (Z.of_nat 4 <? 0)%Z with false; cbv iota; lia).
    assert (E2 : slice_start {| start := Some (Z.of_nat 4 + 1)%Z; stop := None |} (C + 1) = 5)
      by (unfold slice_start, clamp; cbn [start];
          change (Z.of_nat 4 + 1 <? 0)%Z with false; cbv iota; lia).
    assert (E3 : slice_len {| start := Some (Z.of_nat 4 + 1)%Z; stop := None |} (C + 1) = C - 4)
      by (unfold slice_len; rewrite E2; cbn [slice_stop stop]; lia).
    rewrite E1, E2, E3.
    change (slice_start {| start := None; stop := Some (Z.of_nat 4) |} (C + 1)) with 0.
    replace (4 + (C - 4 + 0)) with C by lia.
    rewrite Hdt, Hdv.
    f_equal. apply tabulate_ext. intros idx Hidx.
    apply in_range3_inv in Hidx as (b & a & c & -> & Hb & Ha & Hc).
    destruct (Hitems b a Hb Ha) as (I1 & _ & I3).
    replace (Nat.min 4 C) with 4 in I1, I3 by lia.
    destruct (Nat.lt_ge_cases c 4) as [H1|H1].
    + rewrite select_here by idx_lia.
      cbn [dtype tabulate]. rewrite cast_same.
      rewrite item_tabulate by (apply in_range3; lia).
      cbn [add_index Nat.add]. now rewrite I1.
    + rewrite select_next by idx_lia.
      cbn [nth shape tabulate set_nth].
      rewrite select_here by idx_lia.
      cbn [dtype tabulate]. rewrite cast_same.
      rewrite item_tabulate by (apply in_range3; lia).
      cbn [add_index Nat.add].
      replace (S (S (S (S (S (c - 4)))))) with (c + 1) by lia.
      now rewrite I3 by lia.
Qed.

(** C4.  The second component of the pair [forward] returns is the
    prototype tensor the network returned, as it is: whenever the
    network returns a pair with three-axis predictions [forward]
    returns a pair with those very prototypes, and a pair returned by
    [forward] never holds any other. *)
Theorem C4_prototypes_pass_through (self : WarpModel V) (x : Tensor V) :
  (forall preds protos,
     fst (call (model self) x) = Ok (preds, protos) ->
     ndim preds = 3 ->
     exists det, fst (forward self x) = Ok (det, protos)) /\
  (forall det p,
     fst (forward self x) = Ok (det, p) ->
     exists preds, fst (call (model self) x) = Ok (preds, p)).
Proof.
  split.
  - intros preds protos Hcall H3.
    destruct (rank3 _ H3) as (B & C & A & Hs).
    destruct (forward_run self x preds protos B C A Hcall Hs) as (det & Hf & _).
    now exists det.
  - intros det p H.
    destruct (forward_ok_inv self x det p H) as (preds & Hcall & _).
    now exists preds.
Qed.

(** C6.  [__init__] returns whenever the weights load, and the network
    it leaves in the wrapper has every parameter frozen, is in eval
    mode, in float precision and fused; after any calls of [forward]
    this still holds and the parameters are the ones [__init__] left. *)
Theorem C6_frozen_after_init (Hfuse : FuseContract ext) (Hkeep : CallKeeps ext)
  (weights : string) (n0 : Z) :
  (forall n, YOLO weights = Ok n -> exists self, __init__ weights n0 = Ok self) /\
  (forall self,
     __init__ weights n0 = Ok self ->
     export_ready (model self) = true /\
     forall xs,
       export_ready (model (after_calls self xs)) = true /\
       parameters (model (after_calls self xs)) = parameters (model self)).
Proof.
  split; [intros n; apply init_total|].
  intros self Hinit.
  destruct (init_ready Hfuse weights n0 self Hinit) as (_ & Hfr & Htr & Hfl & Hfu).
  assert (R : export_ready (model self) = true)
    by (unfold export_ready; now rewrite Hfr, Htr, Hfl, Hfu).
  split; [exact R|].
  intros xs.
  destruct (after_calls_keeps Hkeep xs self) as (_ & Hp & Ht & Hc).
  split; [|exact Hp].
  unfold export_ready.
  rewrite (frozen_ext _ _ Hp), (in_float_ext _ _ Hp), Ht,
    (is_fused_by_class _ _ Hc).
  exact R.
Qed.

(** C7.  When the network returns a pair whose predictions have three
    axes, the permutation, the three slices, the shape look-ups, the
    constant tensor and the concatenation all succeed and [forward]
    returns; an exception of [forward] is the one the network raised,
    unless the network returned predictions that do not have three
    axes. *)
Theorem C7_no_error_of_its_own (self : WarpModel V) (x : Tensor V) :
  (forall preds protos,
     fst (call (model self) x) = Ok (preds, protos) ->
     ndim preds = 3 ->
     exists P boxes classes masks b a det,
       permute preds [0; 2; 1] = Ok P /\
       boxes_of P = Ok boxes /\
       classes_of (nc self) P = Ok classes /\
       masks_of (nc self) P = Ok masks /\
       shape_at boxes 0 = Ok b /\
       shape_at boxes 1 = Ok a /\
       cat [boxes; ones [b; a; 1] (device boxes) (dtype boxes); classes; masks] 2
       = Ok det /\
       fst (forward self x) = Ok (det, protos)) /\
  (forall e,
     fst (forward self x) = Raise e ->
     fst (call (model self) x) = Raise e \/
     exists preds protos,
       fst (call (model self) x) = Ok (preds, protos) /\ ndim preds <> 3).
Proof.
  split.
  - intros preds protos Hcall H3.
    destruct (rank3 _ H3) as (B & C & A & Hs).
    destruct (forward_cat self x preds protos B C A Hcall Hs)
      as (P & boxes & classes & masks & det & HP & Hb & Hc & Hm & S0 & S1
          & _ & _ & _ & _ & Hcat & Hf).
    exists P, boxes, classes, masks, B, A, det. tauto.
  - intros e H.
    destruct (fst (call (model self) x)) as [[preds protos]|e'] eqn:Hcall.
    + right. exists preds, protos. split; [reflexivity|].
      intros H3. destruct (rank3 _ H3) as (B & C & A & Hs).
      destruct (forward_run self x preds protos B C A Hcall Hs) as (det & Hf & _).
      rewrite Hf in H. discriminate.
    + left. rewrite (forward_raise self x e' Hcall) in H. exact H.
Qed.

(** C9, as amended.  The constant tensor [forward] concatenates is made
    with the dtype, the device, the batch size and the anchor count of
    the boxes slice and its data are [B * A] times the value 1, so that
    the four tensors concatenated agree on dtype, device and leading
    sizes.  In the detections, which hold one element per index, it is
    the channel right after the boxes: channel [min 4 C] for
    predictions with [C] channels, read there as 1 at every batch
    entry and anchor, which is channel 4 when [4 <= C]. *)
Theorem C9_constant_channel (self : WarpModel V) (x preds protos : Tensor V)
  (B C A : nat) :
  fst (call (model self) x) = Ok (preds, protos) ->
  shape preds = [B; C; A] ->
  exists P boxes classes masks det,
    permute preds [0; 2; 1] = Ok P /\
    boxes_of P = Ok boxes /\
    classes_of (nc self) P = Ok classes /\
    masks_of (nc self) P = Ok masks /\
    shape_at boxes 0 = Ok B /\
    shape_at boxes 1 = Ok A /\
    shape boxes = [B; A; Nat.min 4 C] /\
    let o := ones [B; A; 1] (device boxes) (dtype boxes) in
    cat [boxes; o; classes; masks] 2 = Ok det /\
    fst (forward self x) = Ok (det, protos) /\
    shape o = [B; A; 1] /\
    dtype o = dtype boxes /\
    device o = device boxes /\
    data o = repeat one (B * A) /\
    Forall (fits B A (dtype boxes) (device boxes)) [boxes; o; classes; masks] /\
    well_formed det /\
    (forall b a, b < B -> a < A -> get det [b; a; Nat.min 4 C] = Some one) /\
    (4 <= C -> forall b a, b < B -> a < A -> get det [b; a; 4] = Some one).
Proof.
  intros Hcall Hs.
  destruct (forward_cat self x preds protos B C A Hcall Hs)
    as (P & boxes & classes & masks & det & HP & Hb & Hc & Hm & S0 & S1
        & F & Cb & _ & _ & Hcat & Hf).
  destruct (forward_run self x preds protos B C A Hcall Hs)
    as (det' & Hf' & Hshape & _ & _ & Hitems).
  rewrite Hf in Hf'. injection Hf' as <-.
  pose proof (forward_well_formed self x det protos Hf) as Hwf.
  assert (Sb : shape boxes = [B; A; Nat.min 4 C]).
  { inversion F as [|? ? (kb & Sb & _) _]; subst.
    unfold channels in Cb. rewrite Sb in Cb. cbn [nth] in Cb. now subst kb. }
  assert (Hget : forall b a, b < B -> a < A ->
                 get det [b; a; Nat.min 4 C] = Some one).
  { intros b a Hb' Ha'. destruct (Hitems b a Hb' Ha') as (_ & H & _).
    rewrite <- H. apply get_item; [exact Hwf|].
    rewrite Hshape. apply in_range3.
    pose proof (class_end_le (nc self) C). lia. }
  exists P, boxes, classes, masks, det.
  repeat (split; [assumption|]).
  cbv zeta.
  repeat (split; [first [assumption | reflexivity]|]).
  split.
  { unfold ones, tabulate. cbn [data]. rewrite build_const. cbn [numel fold_right].
    f_equal. lia. }
  split; [exact F|]. split; [exact Hwf|].
  split; [exact Hget|].
  intros H4 b a Hb' Ha'.
  replace 4 with (Nat.min 4 C) at 1 by lia. now apply Hget.
Qed.

(** C10.  On predictions with three axes the three slices never raise,
    whatever the number of channels; with fewer than [nc + 4] channels
    the boxes slice has at most 4 channels, the classes slice is cut
    short, the masks slice is empty, and [forward] returns detections
    with one channel more than the predictions, fewer than the
    [nc + 5] of the intended layout. *)
Theorem C10_slicing_total (self : WarpModel V) (x preds protos : Tensor V)
  (B C A : nat) :
  fst (call (model self) x) = Ok (preds, protos) ->
  shape preds = [B; C; A] ->
  exists P boxes classes masks det,
    permute preds [0; 2; 1] = Ok P /\
    boxes_of P = Ok boxes /\
    classes_of (nc self) P = Ok classes /\
    masks_of (nc self) P = Ok masks /\
    fst (forward self x) = Ok (det, protos) /\
    ((Z.of_nat C < nc self + 4)%Z ->
     shape boxes = [B; A; Nat.min 4 C] /\
     shape classes = [B; A; C - Nat.min 4 C] /\
     shape masks = [B; A; 0] /\
     shape det = [B; A; C + 1] /\
     (Z.of_nat (C + 1) < nc self + 5)%Z).
Proof.
  intros Hcall Hs.
  destruct (forward_cat self x preds protos B C A Hcall Hs)
    as (P & boxes & classes & masks & det & HP & Hb & Hc & Hm & _ & _
        & F & Cb & Cc & Cm & _ & Hf).
  exists P, boxes, classes, masks, det.
  repeat (split; [assumption|]).
  intros Hshort.
  rewrite (class_end_short _ _ Hshort) in Cc, Cm.
  inversion F as [|? ? (kb & Sb & _) F1]; subst.
  inversion F1 as [|? ? _ F2]; subst.
  inversion F2 as [|? ? (kc & Sc & _) F3]; subst.
  inversion F3 as [|? ? (km & Sm & _) _]; subst.
  unfold channels in Cb, Cc, Cm. rewrite Sb in Cb. rewrite Sc in Cc. rewrite Sm in Cm.
  cbn [nth] in Cb, Cc, Cm. subst kb kc km.
  split; [exact Sb|]. split; [exact Sc|].
  split; [rewrite Sm; f_equal; f_equal; f_equal; lia|].
  split; [|lia].
  destruct (forward_layout self x preds protos B C A Hcall Hs (or_intror Hshort))
    as (det' & Hf' & Hshape & _).
  rewrite Hf in Hf'. injection Hf' as <-. exact Hshape.
Qed.

End Claims.

(** * The claims on the small network *)

Lemma demo_laws : TorchLaws Demo.ops.
Proof. split; reflexivity. Qed.

Lemma demo_fuse_contract : FuseContract Demo.ext.
Proof.
  split.
  - intros n H. exact H.
  - intros n H. exact H.
  - reflexivity.
  - intros n. cbn. apply forallb_filter.
  - intros n n' H. cbn.
    change (forallb (fun km => negb (Demo.is_batchnorm km)) (named_modules n))
      with (forallb (fun km : string * SubModule =>
                       negb (existsb (fun c => existsb (String.eqb c) (mro (snd km)))
                               ["BatchNorm2d"]))
                    (named_modules n)).
    change (forallb (fun km => negb (Demo.is_batchnorm km)) (named_modules n'))
      with (forallb (fun km : string * SubModule =>
                       negb (existsb (fun c => existsb (String.eqb c) (mro (snd km)))
                               ["BatchNorm2d"]))
                    (named_modules n')).
    rewrite <- !(forallb_map_comp
                   (fun l => negb (existsb (fun c => existsb (String.eqb c) l)
                                     ["BatchNorm2d"]))
                   (fun km : string * SubModule => mro (snd km))).
    unfold classes_of_modules in H. now rewrite H.
Qed.

Lemma demo_call_state (n : Net Z) (x : Tensor Z) :
  snd (Demo.net_call n x) = (n, x).
Proof.
  unfold Demo.net_call. destruct (parameters n) as [|p [|q l]]; try reflexivity.
  destruct (Nat.eqb (ndim x) 4); reflexivity.
Qed.

Lemma demo_call_keeps : CallKeeps Demo.ext.
Proof.
  split; intros n x; cbn [call Demo.ext]; rewrite demo_call_state; reflexivity.
Qed.

(** [__init__] on the small network: parameters frozen, eval mode,
    batch-norm gone, export attributes set on the head and on [C2f]. *)
Example init_demo :
  __init__ Notebook.weights 80 =
  Ok (mkWarpModel 80
        (mkNet [mkParam (Demo.tensor [1; 7; 2]) false;
                mkParam (Demo.tensor [1; 2; 2; 2]) false]
           false
           [("", mkSubModule ["SegmentationModel"; "Module"] []);
            ("model.0.conv", mkSubModule ["Conv2d"; "Module"] []);
            ("model.2", mkSubModule ["C2f"; "Module"]
                          [("forward", PyMethod "forward_split")]);
            ("model.22", mkSubModule ["Segment"; "Detect"; "Module"]
                           [("dynamic", PyBool false);
                            ("export", PyBool true);
                            ("format", PyStr "onnx")])])).
Proof. reflexivity. Qed.

(** [forward] on predictions with channels 10, 12, ..., 22 for the
    first anchor and 11, 13, ..., 23 for the second. *)
Example forward_demo :
  fst (forward Demo.self Demo.x) =
  Ok (mkTensor [1; 2; 8] float32 cpu
        [10; 12; 14; 16; 1; 18; 20; 22;
         11; 13; 15; 17; 1; 19; 21; 23]%Z,
      Demo.protos).
Proof. reflexivity. Qed.

Example forward_demo_short :
  fst (forward Demo.short_self Demo.x) =
  Ok (mkTensor [1; 2; 4] float32 cpu [10; 12; 14; 1; 11; 13; 15; 1]%Z,
      Demo.protos).
Proof. reflexivity. Qed.

Example forward_demo_bad_input :
  fst (forward Demo.self (Demo.tensor [3])) =
  Raise (RuntimeError "expected a 4D input").
Proof. reflexivity. Qed.

(** C3 as stated fails on predictions with 3 channels: the detections
    then have 4 channels, the constant being the last one; there is no
    channel 4 to delete, and what is left is not the permuted
    predictions.  It also fails for a negative [nc]: with [nc = -2] the
    classes slice [4:2] is empty and the masks slice [2:] starts inside
    the boxes, so that channels 2 and 3 come twice. *)
Lemma C3_counterexample :
  (let det := mkTensor [1; 2; 4] float32 cpu [10; 12; 14; 1; 11; 13; 15; 1]%Z in
   let P := mkTensor [1; 2; 3] float32 cpu [10; 12; 14; 11; 13; 15]%Z in
   fst (call (model Demo.short_self) Demo.x) = Ok (Demo.short_preds, Demo.protos) /\
   fst (forward Demo.short_self Demo.x) = Ok (det, Demo.protos) /\
   permute Demo.short_preds [0; 2; 1] = Ok P /\
   delete_channel det 4 = Ok det /\
   delete_channel det 4 <> Ok P) /\
  (let det := mkTensor [1; 2; 10] float32 cpu
                [10; 12; 14; 16; 1; 14; 16; 18; 20; 22;
                 11; 13; 15; 17; 1; 15; 17; 19; 21; 23]%Z in
   let twice := mkTensor [1; 2; 9] float32 cpu
                  [10; 12; 14; 16; 14; 16; 18; 20; 22;
                   11; 13; 15; 17; 15; 17; 19; 21; 23]%Z in
   let P := mkTensor [1; 2; 7] float32 cpu
              [10; 12; 14; 16; 18; 20; 22;
               11; 13; 15; 17; 19; 21; 23]%Z in
   fst (call (model Demo.negative_self) Demo.x) = Ok (Demo.preds, Demo.protos) /\
   fst (forward Demo.negative_self Demo.x) = Ok (det, Demo.protos) /\
   permute Demo.preds [0; 2; 1] = Ok P /\
   delete_channel det 4 = Ok twice /\
   (boxes <- boxes_of P ;;
    classes <- classes_of (-2) P ;;
    masks <- masks_of (-2) P ;;
    cat [boxes; classes; masks] 2)%py = Ok twice /\
   twice <> P).
Proof.
  cbv zeta. repeat split; try reflexivity; discriminate.
Qed.

(** C9 as stated fails on predictions with 3 channels: the boxes slice
    then has 3 channels, the constant is channel 3 of the detections,
    and the detections have no channel 4. *)
Lemma C9_counterexample :
  let det := mkTensor [1; 2; 4] float32 cpu [10; 12; 14; 1; 11; 13; 15; 1]%Z in
  fst (call (model Demo.short_self) Demo.x) = Ok (Demo.short_preds, Demo.protos) /\
  shape Demo.short_preds = [1; 3; 2] /\
  fst (forward Demo.short_self Demo.x) = Ok (det, Demo.protos) /\
  get det [0; 0; 4] = None /\
  get det [0; 1; 4] = None /\
  get det [0; 0; 3] = Some 1%Z /\
  get det [0; 1; 3] = Some 1%Z.
Proof. cbv zeta. repeat split; reflexivity. Qed.

(** ** The theorems at concrete inputs *)

Lemma C1_output_shapes_witness :
  exists det protos',
    fst (forward Demo.big_self Demo.big_x) = Ok (det, protos') /\
    shape det = [4; 8400; 85 + 32] /\
    well_formed det /\
    shape protos' = [4; 32; 160; 160] /\
    (32 = 32 -> shape det = [4; 8400; 117]).
Proof.
  exact (C1_output_shapes (ops := Demo.ops) (laws := demo_laws) (ext := Demo.ext)
           Demo.big_self Demo.big_x Demo.big_preds Demo.big_protos 4 32
           eq_refl eq_refl eq_refl eq_refl eq_refl).
Defined.

Lemma C2_channel_layout_witness :
  exists det,
    fst (forward Demo.self Demo.x) = Ok (det, Demo.protos) /\
    shape det = [1; 2; 8] /\
    forall b a, b < 1 -> a < 2 ->
      (forall i, i < 4 -> item det [b; a; i] = item Demo.preds [b; i; a]) /\
      item det [b; a; 4] = 1%Z /\
      (forall j, j < 2 -> item det [b; a; 5 + j] = item Demo.preds [b; 4 + j; a]) /\
      (forall k, k < 1 -> item det [b; a; 5 + 2 + k] = item Demo.preds [b; 4 + 2 + k; a]).
Proof.
  exact (C2_channel_layout (ops := Demo.ops) (laws := demo_laws) (ext := Demo.ext)
           Demo.self Demo.x Demo.preds Demo.protos 1 2 2 1
           eq_refl eq_refl eq_refl).
Defined.

Lemma C3_round_trip_witness :
  exists det P boxes classes masks,
    fst (forward Demo.self Demo.x) = Ok (det, Demo.protos) /\
    permute Demo.preds [0; 2; 1] = Ok P /\
    boxes_of P = Ok boxes /\
    classes_of 2 P = Ok classes /\
    masks_of 2 P = Ok masks /\
    cat [boxes; classes; masks] 2 = Ok P /\
    delete_channel det 4 = Ok P.
Proof.
  destruct (C3_round_trip (ops := Demo.ops) (laws := demo_laws) (ext := Demo.ext)
              Demo.self Demo.x Demo.preds Demo.protos 1 7 2
              ltac:(cbn; lia) ltac:(reflexivity) ltac:(reflexivity))
    as (det & P & boxes & classes & masks & H1 & H2 & H3 & H4 & H5 & H6 & H7).
  exists det, P, boxes, classes, masks.
  repeat (split; [assumption|]). apply H7. lia.
Defined.

Lemma C4_prototypes_pass_through_witness :
  exists det preds,
    fst (forward Demo.self Demo.x) = Ok (det, Demo.protos) /\
    fst (call (model Demo.self) Demo.x) = Ok (preds, Demo.protos).
Proof.
  destruct (C4_prototypes_pass_through (ops := Demo.ops) (laws := demo_laws) (ext := Demo.ext) Demo.self Demo.x)
    as [Hthere Hback].
  destruct (Hthere Demo.preds Demo.protos ltac:(reflexivity) ltac:(reflexivity)) as [det Hdet].
  destruct (Hback det Demo.protos Hdet) as [preds Hpreds].
  now exists det, preds.
Defined.

Lemma C6_frozen_after_init_witness :
  exists self,
    __init__ Notebook.weights 80 = Ok self /\
    export_ready (model self) = true /\
    export_ready (model (after_calls self [Demo.x; Demo.tensor [3]; Demo.x])) = true /\
    parameters (model (after_calls self [Demo.x; Demo.tensor [3]; Demo.x]))
    = parameters (model self).
Proof.
  destruct (C6_frozen_after_init (ext := Demo.ext) demo_fuse_contract demo_call_keeps
              Notebook.weights 80) as [Hruns Hready].
  destruct (Hruns _ ltac:(reflexivity)) as [self Hinit].
  destruct (Hready self Hinit) as [R Hcalls].
  exists self. split; [exact Hinit|]. split; [exact R|].
  exact (Hcalls [Demo.x; Demo.tensor [3]; Demo.x]).
Defined.

Lemma C7_no_error_of_its_own_witness :
  (exists P boxes classes masks b a det,
     permute Demo.preds [0; 2; 1] = Ok P /\
     boxes_of P = Ok boxes /\
     classes_of 2 P = Ok classes /\
     masks_of 2 P = Ok masks /\
     shape_at boxes 0 = Ok b /\
     shape_at boxes 1 = Ok a /\
     cat [boxes; ones [b; a; 1] (device boxes) (dtype boxes); classes; masks] 2
     = Ok det /\
     fst (forward Demo.self Demo.x) = Ok (det, Demo.protos)) /\
  (fst (call (model Demo.self) (Demo.tensor [3]))
   = Raise (RuntimeError "expected a 4D input") \/
   exists preds protos,
     fst (call (model Demo.self) (Demo.tensor [3])) = Ok (preds, protos) /\
     ndim preds <> 3).
Proof.
  split.
  - exact (proj1 (C7_no_error_of_its_own (ops := Demo.ops) (laws := demo_laws) (ext := Demo.ext) Demo.self Demo.x)
             Demo.preds Demo.protos eq_refl eq_refl).
  - exact (proj2 (C7_no_error_of_its_own (ops := Demo.ops) (laws := demo_laws) (ext := Demo.ext) Demo.self
                    (Demo.tensor [3]))
             (RuntimeError "expected a 4D input") eq_refl).
Defined.

Lemma C9_constant_channel_witness :
  exists P boxes classes masks det,
    permute Demo.preds [0; 2; 1] = Ok P /\
    boxes_of P = Ok boxes /\
    classes_of 2 P = Ok classes /\
    masks_of 2 P = Ok masks /\
    cat [boxes; ones [1; 2; 1] (device boxes) (dtype boxes); classes; masks] 2
    = Ok det /\
    fst (forward Demo.self Demo.x) = Ok (det, Demo.protos) /\
    dtype (ones [1; 2; 1] (device boxes) (dtype boxes)) = dtype boxes /\
    device (ones [1; 2; 1] (device boxes) (dtype boxes)) = device boxes /\
    data (ones [1; 2; 1] (device boxes) (dtype boxes)) = [1; 1]%Z /\
    Forall (fits 1 2 (dtype boxes) (device boxes))
      [boxes; ones [1; 2; 1] (device boxes) (dtype boxes); classes; masks] /\
    well_formed det /\
    (forall b a, b < 1 -> a < 2 -> get det [b; a; 4] = Some 1%Z).
Proof.
  destruct (C9_constant_channel (ops := Demo.ops) (laws := demo_laws) (ext := Demo.ext)
              Demo.self Demo.x Demo.preds Demo.protos 1 7 2
              ltac:(reflexivity) ltac:(reflexivity))
    as (P & boxes & classes & masks & det & H1 & H2 & H3 & H4 & _ & _ & _ & H).
  cbv zeta in H.
  destruct H as (H5 & H6 & _ & H8 & H9 & H10 & H11 & H12 & _ & H14).
  exists P, boxes, classes, masks, det.
  repeat (split; [assumption|]). apply H14. lia.
Defined.

Lemma C10_slicing_total_witness :
  exists P boxes classes masks det,
    permute Demo.short_preds [0; 2; 1] = Ok P /\
    boxes_of P = Ok boxes /\
    classes_of 80 P = Ok classes /\
    masks_of 80 P = Ok masks /\
    fst (forward Demo.short_self Demo.x) = Ok (det, Demo.protos) /\
    shape boxes = [1; 2; 3] /\
    shape classes = [1; 2; 0] /\
    shape masks = [1; 2; 0] /\
    shape det = [1; 2; 4].
Proof.
  destruct (C10_slicing_total (ops := Demo.ops) (laws := demo_laws) (ext := Demo.ext)
              Demo.short_self Demo.x Demo.short_preds Demo.protos 1 3 2
              ltac:(reflexivity) ltac:(reflexivity))
    as (P & boxes & classes & masks & det & H1 & H2 & H3 & H4 & H5 & H).
  destruct (H ltac:(cbn; lia)) as (S1 & S2 & S3 & S4 & _).
  exists P, boxes, classes, masks, det.
  repeat (split; [assumption|]). exact S4.
Defined.

(** * Further properties of [forward] *)

Section ForwardMore.

Context {V : Type} {ops : TorchOps V} {laws : TorchLaws ops} {ext : Ultralytics V}.

(** The layout of the detections for every integer [nc] and every
    number of channels [C]: the first [min 4 C] channels of the
    predictions, the constant 1, the channels from there up to where
    the bound [nc + 4] falls once resolved as a slice bound, and the
    channels from that place to the end; when the bound falls inside
    the boxes the second group is empty and the third starts inside
    the boxes. *)
Theorem forward_layout_any_nc (self : WarpModel V) (x preds protos : Tensor V)
  (B C A : nat) :
  fst (call (model self) x) = Ok (preds, protos) ->
  shape preds = [B; C; A] ->
  exists det,
    fst (forward self x) = Ok (det, protos) /\
    shape det = [B; A; Nat.min 4 C + 1
                       + (class_end (nc self) C - Nat.min 4 C)
                       + (C - class_end (nc self) C)] /\
    forall b a, b < B -> a < A ->
      (forall c, c < Nat.min 4 C -> item det [b; a; c] = item preds [b; c; a]) /\
      item det [b; a; Nat.min 4 C] = one /\
      (forall j, j < class_end (nc self) C - Nat.min 4 C ->
         item det [b; a; Nat.min 4 C + 1 + j]
         = item preds [b; Nat.min 4 C + j; a]) /\
      (forall j, j < C - class_end (nc self) C ->
         item det [b; a; Nat.min 4 C + 1
                         + (class_end (nc self) C - Nat.min 4 C) + j]
         = item preds [b; class_end (nc self) C + j; a]).
Proof.
  intros Hcall Hs.
  destruct (forward_run self x preds protos B C A Hcall Hs)
    as (det & Hf & Hshape & _ & _ & Hitems).
  exists det. split; [exact Hf|].
  split; [rewrite Hshape; f_equal; f_equal; f_equal; lia|].
  exact Hitems.
Qed.

(** The detections keep the dtype and the device of the predictions and
    hold one element per index; they have between [C + 1] and [C + 5]
    channels, [C + 1] exactly when the class scores end at or after
    the boxes; on an empty batch, or without anchors, they are empty. *)
Theorem forward_metadata (self : WarpModel V) (x preds protos : Tensor V)
  (B C A : nat) :
  fst (call (model self) x) = Ok (preds, protos) ->
  shape preds = [B; C; A] ->
  exists det n,
    fst (forward self x) = Ok (det, protos) /\
    shape det = [B; A; n] /\
    dtype det = dtype preds /\
    device det = device preds /\
    length (data det) = B * (A * n) /\
    C + 1 <= n <= C + 5 /\
    (n = C + 1 <-> Nat.min 4 C <= class_end (nc self) C) /\
    (B = 0 \/ A = 0 -> data det = []).
Proof.
  intros Hcall Hs.
  destruct (forward_run self x preds protos B C A Hcall Hs)
    as (det & Hf & Hshape & Hdt & Hdv & _).
  pose proof (forward_well_formed self x det protos Hf) as Hwf.
  pose proof (class_end_le (nc self) C) as Hk.
  unfold well_formed in Hwf. rewrite Hshape in Hwf. cbn [numel fold_right] in Hwf.
  rewrite Nat.mul_1_r in Hwf.
  eexists det, _. split; [exact Hf|]. split; [exact Hshape|].
  split; [exact Hdt|]. split; [exact Hdv|]. split; [exact Hwf|].
  split; [lia|]. split; [lia|].
  intros H0. apply length_zero_iff_nil. rewrite Hwf.
  destruct H0 as [-> | ->]; lia.
Qed.

(** [forward] computes no value of its own: an element of the
    detections is the constant 1 or an element of the predictions, of
    the same batch entry and anchor. *)
Theorem forward_only_moves_values (self : WarpModel V) (x preds protos : Tensor V)
  (B C A : nat) :
  fst (call (model self) x) = Ok (preds, protos) ->
  shape preds = [B; C; A] ->
  exists det n,
    fst (forward self x) = Ok (det, protos) /\
    shape det = [B; A; n] /\
    forall b a j, b < B -> a < A -> j < n ->
      item det [b; a; j] = one \/
      exists c, c < C /\ item det [b; a; j] = item preds [b; c; a].
Proof.
  intros Hcall Hs.
  destruct (forward_run self x preds protos B C A Hcall Hs)
    as (det & Hf & Hshape & _ & _ & Hitems).
  pose proof (class_end_le (nc self) C) as Hk.
  eexists det, _. split; [exact Hf|]. split; [exact Hshape|].
  intros b a j Hb Ha Hj.
  destruct (Hitems b a Hb Ha) as (H1 & H2 & H3 & H4).
  set (nb := Nat.min 4 C) in *. set (k := class_end (nc self) C) in *.
  assert (Hnb : nb <= C) by apply Nat.le_min_r.
  destruct (Nat.lt_ge_cases j nb) as [L1|L1].
  { right. exists j. split; [lia|]. now apply H1. }
  destruct (Nat.eq_dec j nb) as [->|N]; [now left|].
  destruct (Nat.lt_ge_cases j (nb + 1 + (k - nb))) as [L2|L2].
  { right. exists (nb + (j - nb - 1)). split; [lia|].
    replace j with (nb + 1 + (j - nb - 1)) at 1 by lia. apply H3. lia. }
  right. exists (k + (j - (nb + 1 + (k - nb)))). split; [lia|].
  replace j with (nb + 1 + (k - nb) + (j - (nb + 1 + (k - nb)))) at 1 by lia.
  apply H4. lia.
Qed.

(** [forward] drops nothing, whatever [nc] is: every element of the
    predictions is found in the detections, at the same batch entry
    and anchor. *)
Theorem forward_drops_nothing (self : WarpModel V) (x preds protos : Tensor V)
  (B C A : nat) :
  fst (call (model self) x) = Ok (preds, protos) ->
  shape preds = [B; C; A] ->
  exists det n,
    fst (forward self x) = Ok (det, protos) /\
    shape det = [B; A; n] /\
    forall b a c, b < B -> a < A -> c < C ->
      exists j, j < n /\ item det [b; a; j] = item preds [b; c; a].
Proof.
  intros Hcall Hs.
  destruct (forward_run self x preds protos B C A Hcall Hs)
    as (det & Hf & Hshape & _ & _ & Hitems).
  pose proof (class_end_le (nc self) C) as Hk.
  eexists det, _. split; [exact Hf|]. split; [exact Hshape|].
  intros b a c Hb Ha Hc.
  destruct (Hitems b a Hb Ha) as (H1 & _ & H3 & H4).
  set (nb := Nat.min 4 C) in *. set (k := class_end (nc self) C) in *.
  destruct (Nat.lt_ge_cases c nb) as [L1|L1].
  { exists c. split; [lia|]. now apply H1. }
  destruct (Nat.lt_ge_cases c k) as [L2|L2].
  - exists (nb + 1 + (c - nb)). split; [lia|].
    rewrite H3 by lia. now replace (nb + (c - nb)) with c by lia.
  - exists (nb + 1 + (k - nb) + (c - k)). split; [lia|].
    rewrite H4 by lia. now replace (k + (c - k)) with c by lia.
Qed.

(** What the detections hold for one batch entry and one anchor depends
    on the predictions for that entry and that anchor only: two runs
    with the same [nc] and the same number of channels, whatever their
    batch sizes and anchor counts, agree where the predictions do. *)
Theorem forward_is_local (self self' : WarpModel V)
  (x x' preds preds' protos protos' : Tensor V) (B B' C A A' b b' a a' : nat) :
  nc self' = nc self ->
  fst (call (model self) x) = Ok (preds, protos) ->
  fst (call (model self') x') = Ok (preds', protos') ->
  shape preds = [B; C; A] ->
  shape preds' = [B'; C; A'] ->
  b < B -> a < A -> b' < B' -> a' < A' ->
  (forall c, c < C -> item preds' [b'; c; a'] = item preds [b; c; a]) ->
  exists det det' n,
    fst (forward self x) = Ok (det, protos) /\
    fst (forward self' x') = Ok (det', protos') /\
    shape det = [B; A; n] /\
    shape det' = [B'; A'; n] /\
    forall j, j < n -> item det' [b'; a'; j] = item det [b; a; j].
Proof.
  intros Hnc Hcall Hcall' Hs Hs' Hb Ha Hb' Ha' Hsame.
  destruct (forward_run self x preds protos B C A Hcall Hs)
    as (det & Hf & Hshape & _ & _ & Hitems).
  destruct (forward_run self' x' preds' protos' B' C A' Hcall' Hs')
    as (det' & Hf' & Hshape' & _ & _ & Hitems').
  rewrite Hnc in Hshape', Hitems'.
  pose proof (class_end_le (nc self) C) as Hk.
  eexists det, det', _.
  split; [exact Hf|]. split; [exact Hf'|].
  split; [exact Hshape|]. split; [exact Hshape'|].
  intros j Hj.
  destruct (Hitems b a Hb Ha) as (H1 & H2 & H3 & H4).
  destruct (Hitems' b' a' Hb' Ha') as (H1' & H2' & H3' & H4').
  set (nb := Nat.min 4 C) in *. set (k := class_end (nc self) C) in *.
  assert (Hnb : nb <= C) by apply Nat.le_min_r.
  destruct (Nat.lt_ge_cases j nb) as [L1|L1].
  { rewrite H1, H1' by lia. apply Hsame. lia. }
  destruct (Nat.eq_dec j nb) as [->|N]; [now rewrite H2, H2'|].
  destruct (Nat.lt_ge_cases j (nb + 1 + (k - nb))) as [L2|L2].
  { replace j with (nb + 1 + (j - nb - 1)) by lia.
    rewrite H3, H3' by lia. apply Hsame. lia. }
  replace j with (nb + 1 + (k - nb) + (j - (nb + 1 + (k - nb)))) by lia.
  rewrite H4, H4' by lia. apply Hsame. lia.
Qed.

(** [forward] looks at [nc] through the bound [nc + 4] as slicing
    resolves it on the channel axis, and through nothing else. *)
Lemma forward_by_class_end (self self' : WarpModel V) (x x' preds protos : Tensor V)
  (B C A : nat) :
  fst (call (model self) x) = Ok (preds, protos) ->
  fst (call (model self') x') = Ok (preds, protos) ->
  shape preds = [B; C; A] ->
  class_end (nc self') C = class_end (nc self) C ->
  fst (forward self' x') = fst (forward self x).
Proof.
  intros Hcall Hcall' Hs Hk. unfold forward.
  destruct (call (model self) x) as [r [m x1]].
  destruct (call (model self') x') as [r' [m' x1']].
  cbn [fst] in Hcall, Hcall'. subst r r'. cbn [fst bind nc].
  rewrite (permute_021 _ B C A Hs). cbn [bind].
  rewrite !(getitem_last _ _ B A C) by reflexivity.
  rewrite !classes_len, !masks_len.
  change (slice_start {| start := Some (nc self + 4)%Z; stop := None |} C)
    with (class_end (nc self) C).
  change (slice_start {| start := Some (nc self' + 4)%Z; stop := None |} C)
    with (class_end (nc self') C).
  rewrite Hk. reflexivity.
Qed.

(** An [nc] too large for the predictions is not noticed: every [nc]
    with [nc + 4] at or beyond the number of channels gives the same
    outcome, that of [nc = C - 4], with an empty masks slice. *)
Theorem forward_nc_saturates (self : WarpModel V) (x preds protos : Tensor V)
  (B C A : nat) (nc' : Z) :
  fst (call (model self) x) = Ok (preds, protos) ->
  shape preds = [B; C; A] ->
  (Z.of_nat C <= nc self + 4)%Z ->
  (Z.of_nat C <= nc' + 4)%Z ->
  fst (forward (mkWarpModel nc' (model self)) x) = fst (forward self x) /\
  exists P masks, permute preds [0; 2; 1] = Ok P /\
                  masks_of nc' P = Ok masks /\ shape masks = [B; A; 0].
Proof.
  intros Hcall Hs H1 H2.
  assert (E : forall n, (Z.of_nat C <= n + 4)%Z -> class_end n C = C).
  { intros n Hn. unfold class_end, clamp.
    destruct (n + 4 <? 0)%Z eqn:L; [apply Z.ltb_lt in L; lia|lia]. }
  split.
  - apply (forward_by_class_end self (mkWarpModel nc' (model self))
             x x preds protos B C A Hcall Hcall Hs).
    cbn [nc]. now rewrite !E.
  - rewrite (permute_021 _ B C A Hs). eexists. eexists.
    split; [reflexivity|]. unfold masks_of.
    rewrite (getitem_last _ _ B A C) by reflexivity.
    split; [reflexivity|]. cbn [shape tabulate].
    rewrite masks_len, E by exact H2. now rewrite Nat.sub_diag.
Qed.

(** A negative bound counts from the end, as in any Python slice: with
    [nc + 4 < 0] the masks are the last [-(nc + 4)] channels, and the
    outcome is that of [nc + C], as long as these leave room for the
    bound to stay within the channels. *)
Theorem forward_nc_from_the_end (self : WarpModel V) (x preds protos : Tensor V)
  (B C A : nat) :
  fst (call (model self) x) = Ok (preds, protos) ->
  shape preds = [B; C; A] ->
  (nc self + 4 < 0)%Z ->
  (0 <= Z.of_nat C + nc self + 4)%Z ->
  fst (forward (mkWarpModel (Z.of_nat C + nc self) (model self)) x)
  = fst (forward self x) /\
  exists P masks, permute preds [0; 2; 1] = Ok P /\
                  masks_of (nc self) P = Ok masks /\
                  shape masks = [B; A; Z.to_nat (- (nc self + 4))].
Proof.
  intros Hcall Hs H1 H2.
  assert (E : class_end (nc self) C = Z.to_nat (Z.of_nat C + nc self + 4)).
  { unfold class_end, clamp.
    destruct (nc self + 4 <? 0)%Z eqn:L; [|apply Z.ltb_ge in L; lia].
    f_equal. lia. }
  split.
  - apply (forward_by_class_end self
             (mkWarpModel (Z.of_nat C + nc self) (model self))
             x x preds protos B C A Hcall Hcall Hs).
    cbn [nc]. rewrite E. unfold class_end, clamp.
    destruct (Z.of_nat C + nc self + 4 <? 0)%Z eqn:L;
      [apply Z.ltb_lt in L; lia|]. f_equal. lia.
  - rewrite (permute_021 _ B C A Hs). eexists. eexists.
    split; [reflexivity|]. unfold masks_of.
    rewrite (getitem_last _ _ B A C) by reflexivity.
    split; [reflexivity|]. cbn [shape tabulate].
    rewrite masks_len, E. f_equal. f_equal. f_equal. lia.
Qed.

(** [forward] returns exactly when the network returns a pair whose
    predictions have three axes; predictions with any other number of
    axes make it raise a [RuntimeError], whatever [nc] and the
    prototypes are. *)
Theorem forward_returns_iff (self : WarpModel V) (x : Tensor V) :
  ((exists det p, fst (forward self x) = Ok (det, p)) <->
   (exists preds protos,
      fst (call (model self) x) = Ok (preds, protos) /\ ndim preds = 3)) /\
  (forall preds protos,
     fst (call (model self) x) = Ok (preds, protos) ->
     ndim preds <> 3 ->
     exists msg, fst (forward self x) = Raise (RuntimeError msg)).
Proof.
  split; [split|].
  - intros (det & p & H).
    destruct (forward_ok_inv self x det p H) as (preds & Hcall & H3).
    now exists preds, p.
  - intros (preds & protos & Hcall & H3).
    destruct (rank3 _ H3) as (B & C & A & Hs).
    destruct (forward_run self x preds protos B C A Hcall Hs) as (det & Hf & _).
    now exists det, protos.
  - intros preds protos Hcall Hr. unfold forward.
    destruct (call (model self) x) as [r [m x']]. simpl in Hcall. subst r.
    cbn [fst bind]. unfold permute. cbn [length].
    replace (Nat.eqb 3 (ndim preds)) with false
      by (symmetry; apply Nat.eqb_neq; congruence).
    cbn [negb bind]. eauto.
Qed.

End ForwardMore.

(** * Further properties of [__init__] and of the last cell *)

Section InitMore.

Context {V : Type} {ops : TorchOps V} {laws : TorchLaws ops} {ext : Ultralytics V}.

Lemma assoc_get_set_same k v l : assoc_get k (assoc_set k v l) = Some v.
Proof.
  induction l as [|[k0 v0] l IH]; simpl.
  - now rewrite String.eqb_refl.
  - destruct (String.eqb k k0) eqn:E; simpl.
    + now rewrite String.eqb_refl.
    + now rewrite E.
Qed.

Lemma assoc_get_set_other k k' v l :
  String.eqb k' k = false ->
  assoc_get k' (assoc_set k v l) = assoc_get k' l.
Proof.
  intros N. induction l as [|[k0 v0] l IH]; simpl.
  - now rewrite N.
  - destruct (String.eqb k k0) eqn:E; simpl.
    + apply String.eqb_eq in E. subst k0. now rewrite N.
    + now rewrite IH.
Qed.

Lemma getattr_setattr_same (m : SubModule) k v : getattr (setattr m k v) k = Some v.
Proof. apply assoc_get_set_same. Qed.

Lemma getattr_setattr_other (m : SubModule) k k' v :
  String.eqb k' k = false -> getattr (setattr m k v) k' = getattr m k'.
Proof. apply assoc_get_set_other. Qed.

Lemma isinstance_configure (m : SubModule) cs :
  isinstance (configure m) cs = isinstance m cs.
Proof.
  unfold configure.
  destruct (isinstance m ["Detect"; "RTDETRDecoder"]); [reflexivity|].
  now destruct (isinstance m ["C2f"]).
Qed.

(** [__init__] is [before_export] followed by [configure] on every
    sub-module. *)
Lemma init_unfold (weights : string) (n0 : Z) (self : WarpModel V) :
  __init__ weights n0 = Ok self ->
  exists net0,
    YOLO weights = Ok net0 /\
    self =
    mkWarpModel n0
      (mkNet (parameters (before_export net0)) (training (before_export net0))
         (map (fun km => (fst km, configure (snd km)))
            (named_modules (before_export net0)))).
Proof.
  assert (Ok_inj : forall a b : WarpModel V, Ok a = Ok b -> a = b)
    by (intros a b Hab; congruence).
  unfold __init__. destruct (YOLO weights) as [net0|e]; cbn [bind]; [|discriminate].
  intros H. apply Ok_inj in H. rewrite <- H.
  exists net0. split; [reflexivity|].
  unfold before_export. cbv zeta. f_equal. f_equal.
  apply map_ext. intros [k m]. unfold configure.
  change (fst (k, m)) with k. change (snd (k, m)) with m.
  destruct (isinstance m ["Detect"; "RTDETRDecoder"]); [reflexivity|].
  now destruct (isinstance m ["C2f"]).
Qed.

Lemma Forall2_map_self {A : Type} (R : A -> A -> Prop) (f : A -> A) (l : list A) :
  (forall a, R a (f a)) -> Forall2 R l (map f l).
Proof. intros H. induction l; simpl; constructor; auto. Qed.

(** In the wrapper [__init__] returns, every sub-module that is a
    [Detect] or an [RTDETRDecoder] (a [Segment] head is a [Detect]) has
    [dynamic = False], [export = True] and [format = "onnx"], and every
    other sub-module that is a [C2f] has [forward] bound to
    [forward_split]. *)
Theorem init_export_attributes (weights : string) (n0 : Z) (self : WarpModel V) :
  __init__ weights n0 = Ok self ->
  forall k m, In (k, m) (named_modules (model self)) ->
    (isinstance m ["Detect"; "RTDETRDecoder"] = true ->
     getattr m "dynamic" = Some (PyBool false) /\
     getattr m "export" = Some (PyBool true) /\
     getattr m "format" = Some (PyStr "onnx")) /\
    (isinstance m ["Detect"; "RTDETRDecoder"] = false ->
     isinstance m ["C2f"] = true ->
     getattr m "forward" = Some (PyMethod "forward_split")).
Proof.
  intros Hinit k m Hin.
  destruct (init_unfold weights n0 self Hinit) as (net0 & _ & ->).
  cbn [model named_modules] in Hin.
  apply in_map_iff in Hin as ([k0 m0] & E & _).
  cbn [fst snd] in E. injection E as _ <-.
  rewrite !isinstance_configure. unfold configure.
  split.
  - intros ->.
    rewrite getattr_setattr_same.
    rewrite (getattr_setattr_other _ "format" "export") by reflexivity.
    rewrite getattr_setattr_same.
    rewrite (getattr_setattr_other _ "format" "dynamic") by reflexivity.
    rewrite (getattr_setattr_other _ "export" "dynamic") by reflexivity.
    rewrite getattr_setattr_same. auto.
  - intros -> ->. apply getattr_setattr_same.
Qed.

(** The loop over the sub-modules sets those four attributes and does
    nothing else: [nc] is stored as given, parameters and [training]
    are as [fuse()] returned them, and so are the names, the order and
    the classes of the sub-modules and every other attribute; a head
    keeps its [forward] even when it is a [C2f] as well, a sub-module
    that is not a head keeps [dynamic], [export] and [format], and a
    sub-module that is neither a head nor a [C2f] is untouched. *)
Theorem init_touches_only (weights : string) (n0 : Z) (net0 : Net V) :
  YOLO weights = Ok net0 ->
  exists self,
    __init__ weights n0 = Ok self /\
    nc self = n0 /\
    parameters (model self) = parameters (before_export net0) /\
    training (model self) = training (before_export net0) /\
    map fst (named_modules (model self))
    = map fst (named_modules (before_export net0)) /\
    Forall2
      (fun km km' =>
         let m := snd km in
         let m' := snd km' in
         mro m' = mro m /\
         (forall a, ~ In a ["dynamic"; "export"; "format"; "forward"] ->
                    getattr m' a = getattr m a) /\
         (isinstance m ["Detect"; "RTDETRDecoder"] = true ->
          getattr m' "forward" = getattr m "forward") /\
         (isinstance m ["Detect"; "RTDETRDecoder"] = false ->
          getattr m' "dynamic" = getattr m "dynamic" /\
          getattr m' "export" = getattr m "export" /\
          getattr m' "format" = getattr m "format") /\
         (isinstance m ["Detect"; "RTDETRDecoder"] = false ->
          isinstance m ["C2f"] = false -> m' = m))
      (named_modules (before_export net0)) (named_modules (model self)).
Proof.
  intros Hload.
  destruct (init_total weights n0 net0 Hload) as [self Hinit].
  exists self. split; [exact Hinit|].
  destruct (init_unfold weights n0 self Hinit) as (net1 & Hload' & ->).
  rewrite Hload in Hload'. injection Hload' as <-.
  cbn [nc model parameters training named_modules].
  split; [reflexivity|]. split; [reflexivity|]. split; [reflexivity|].
  split.
  { rewrite map_map. apply map_ext. reflexivity. }
  apply Forall2_map_self. intros [k m]. cbn [fst snd]. cbv zeta.
  unfold configure.
  destruct (isinstance m ["Detect"; "RTDETRDecoder"]) eqn:Hd.
  - split; [reflexivity|]. split.
    { intros a Ha.
      rewrite !getattr_setattr_other; [reflexivity| | |];
        apply String.eqb_neq; intros ->; apply Ha; simpl; auto. }
    split.
    { intros _. now rewrite !getattr_setattr_other by reflexivity. }
    split; discriminate.
  - destruct (isinstance m ["C2f"]) eqn:Hc.
    + split; [reflexivity|]. split.
      { intros a Ha. apply getattr_setattr_other.
        apply String.eqb_neq. intros ->. apply Ha. simpl. auto. }
      split; [discriminate|]. split; [|discriminate].
      intros _. now rewrite !getattr_setattr_other by reflexivity.
    + repeat split; reflexivity.
Qed.

(** The parameters end on the notebook's device, the cpu, given that
    [fuse()] makes its parameters on the device of those it replaces. *)
Theorem init_on_device (weights : string) (n0 : Z) (self : WarpModel V) :
  (forall n d,
     Forall (fun p => device (value p) = d) (parameters n) ->
     Forall (fun p => device (value p) = d) (parameters (fuse n))) ->
  __init__ weights n0 = Ok self ->
  Forall (fun p => device (value p) = cpu) (parameters (model self)).
Proof.
  intros Hfuse Hinit.
  destruct (init_unfold weights n0 self Hinit) as (net0 & _ & ->).
  cbn [model parameters]. unfold before_export. cbv zeta.
  apply Hfuse. unfold float, eval, to, deepcopy. cbn [parameters].
  rewrite !Forall_map. apply Forall_forall. intros p _. cbn.
  destruct (is_floating_point (dtype (value p))); reflexivity.
Qed.

(** The last cell shows the shapes of the two tensors [forward]
    returns: it raises what loading the weights raises; for
    predictions of shape (B, C, A) it shows (B, A, C + 1) and the shape
    of the prototypes; and whatever it shows is of that form, so that
    the shape of the predictions can be read back from it. *)
Theorem run_cell_shapes (x : Tensor V) :
  (forall e, YOLO "yolov8l-seg.pt" = Raise e -> run_cell x = Raise e) /\
  (forall self preds protos B C A,
     __init__ "yolov8l-seg.pt" 80 = Ok self ->
     fst (call (model self) x) = Ok (preds, protos) ->
     shape preds = [B; C; A] ->
     run_cell x = Ok ([B; A; C + 1], shape protos)) /\
  (forall s1 s2,
     run_cell x = Ok (s1, s2) ->
     exists self preds protos B C A,
       __init__ "yolov8l-seg.pt" 80 = Ok self /\
       fst (call (model self) x) = Ok (preds, protos) /\
       shape preds = [B; C; A] /\
       s1 = [B; A; C + 1] /\
       s2 = shape protos).
Proof.
  assert (Hnc : forall self, __init__ "yolov8l-seg.pt" 80 = Ok self -> nc self = 80%Z).
  { intros self H. destruct (init_unfold _ _ _ H) as (? & _ & ->). reflexivity. }
  split; [|split].
  - intros e He. unfold run_cell, __init__. rewrite He. reflexivity.
  - intros self preds protos B C A Hinit Hcall Hs.
    unfold run_cell. rewrite Hinit. cbn [bind].
    destruct (forward_layout self x preds protos B C A Hcall Hs)
      as (det & Hf & Hshape & _); [left; rewrite (Hnc _ Hinit); lia|].
    rewrite Hf. cbn [bind fst snd]. now rewrite Hshape.
  - intros s1 s2 H. unfold run_cell in H.
    destruct (__init__ "yolov8l-seg.pt" 80) as [self|e] eqn:Hinit;
      cbn [bind] in H; [|discriminate].
    destruct (fst (forward self x)) as [[det p]|e] eqn:Hf;
      cbn [bind fst snd] in H; [|discriminate].
    injection H as <- <-.
    destruct (forward_ok_inv self x det p Hf) as (preds & Hcall & H3).
    destruct (rank3 _ H3) as (B & C & A & Hs).
    destruct (forward_layout self x preds p B C A Hcall Hs)
      as (det' & Hf' & Hshape & _); [left; rewrite (Hnc _ eq_refl); lia|].
    rewrite Hf in Hf'. injection Hf' as <-.
    exists self, preds, p, B, C, A. auto.
Qed.

End InitMore.

(** ** These properties at concrete inputs *)

Lemma forward_layout_any_nc_witness :
  exists det,
    fst (forward Demo.negative_self Demo.x) = Ok (det, Demo.protos) /\
    shape det = [1; 2; 10] /\
    forall b a, b < 1 -> a < 2 ->
      (forall c, c < 4 -> item det [b; a; c] = item Demo.preds [b; c; a]) /\
      item det [b; a; 4] = 1%Z /\
      (forall j, j < 0 -> item det [b; a; 4 + 1 + j] = item Demo.preds [b; 4 + j; a]) /\
      (forall j, j < 5 -> item det [b; a; 4 + 1 + 0 + j] = item Demo.preds [b; 2 + j; a]).
Proof.
  exact (forward_layout_any_nc (ops := Demo.ops) (laws := demo_laws)
           (ext := Demo.ext)
           Demo.negative_self Demo.x Demo.preds Demo.protos 1 7 2
           eq_refl eq_refl).
Defined.

Lemma forward_metadata_witness :
  exists det,
    fst (forward Demo.empty_self Demo.x) = Ok (det, Demo.protos) /\
    shape det = [0; 2; 8] /\
    dtype det = float32 /\
    device det = cpu /\
    data det = [].
Proof.
  destruct (forward_metadata (ops := Demo.ops) (laws := demo_laws) (ext := Demo.ext)
              Demo.empty_self Demo.x (Demo.tensor [0; 7; 2]) Demo.protos 0 7 2
              ltac:(reflexivity) ltac:(reflexivity))
    as (det & n & Hf & Hs & Hdt & Hdv & _ & _ & Hn & Hempty).
  assert (E : n = 8) by (apply Hn; vm_compute; lia).
  subst n. exists det.
  split; [exact Hf|]. split; [exact Hs|]. split; [exact Hdt|]. split; [exact Hdv|].
  apply Hempty. now left.
Defined.

Lemma forward_only_moves_values_witness :
  exists det n,
    fst (forward Demo.from_end_self Demo.x) = Ok (det, Demo.protos) /\
    shape det = [1; 2; n] /\
    forall b a j, b < 1 -> a < 2 -> j < n ->
      item det [b; a; j] = 1%Z \/
      exists c, c < 7 /\ item det [b; a; j] = item Demo.preds [b; c; a].
Proof.
  exact (forward_only_moves_values (ops := Demo.ops) (laws := demo_laws)
           (ext := Demo.ext)
           Demo.from_end_self Demo.x Demo.preds Demo.protos 1 7 2
           eq_refl eq_refl).
Defined.

Lemma forward_drops_nothing_witness :
  exists det n,
    fst (forward Demo.negative_self Demo.x) = Ok (det, Demo.protos) /\
    shape det = [1; 2; n] /\
    forall b a c, b < 1 -> a < 2 -> c < 7 ->
      exists j, j < n /\ item det [b; a; j] = item Demo.preds [b; c; a].
Proof.
  exact (forward_drops_nothing (ops := Demo.ops) (laws := demo_laws)
           (ext := Demo.ext)
           Demo.negative_self Demo.x Demo.preds Demo.protos 1 7 2
           eq_refl eq_refl).
Defined.

(** Anchor 1 of the only entry of a batch is anchor 0 of entry 1 of
    another batch, with the same seven values. *)
Lemma forward_is_local_witness :
  let preds' := mkTensor [2; 7; 1] float32 cpu
                  [0; 0; 0; 0; 0; 0; 0; 11; 13; 15; 17; 19; 21; 23]%Z in
  exists det det' n,
    fst (forward Demo.self Demo.x) = Ok (det, Demo.protos) /\
    fst (forward (Demo.wrapper 2 preds' Demo.protos) (Demo.images 2))
    = Ok (det', Demo.protos) /\
    shape det = [1; 2; n] /\
    shape det' = [2; 1; n] /\
    forall j, j < n -> item det' [1; 0; j] = item det [0; 1; j].
Proof.
  intros preds'.
  refine (forward_is_local (ops := Demo.ops) (laws := demo_laws) (ext := Demo.ext)
            Demo.self (Demo.wrapper 2 preds' Demo.protos)
            Demo.x (Demo.images 2) Demo.preds preds' Demo.protos Demo.protos
            1 2 7 2 1 0 1 1 0
            eq_refl eq_refl eq_refl eq_refl eq_refl
            ltac:(lia) ltac:(lia) ltac:(lia) ltac:(lia) _).
  intros c Hc.
  do 7 (destruct c as [|c]; [reflexivity|]). lia.
Defined.

Lemma forward_nc_saturates_witness :
  fst (forward (mkWarpModel 5 (model Demo.short_self)) Demo.x)
  = fst (forward Demo.short_self Demo.x) /\
  exists P masks, permute Demo.short_preds [0; 2; 1] = Ok P /\
                  masks_of 5 P = Ok masks /\ shape masks = [1; 2; 0].
Proof.
  exact (forward_nc_saturates (ops := Demo.ops) (ext := Demo.ext)
           Demo.short_self Demo.x Demo.short_preds Demo.protos 1 3 2 5
           eq_refl eq_refl ltac:(cbn; lia) ltac:(cbn; lia)).
Defined.

Lemma forward_nc_from_the_end_witness :
  fst (forward Demo.self Demo.x) = fst (forward Demo.from_end_self Demo.x) /\
  exists P masks, permute Demo.preds [0; 2; 1] = Ok P /\
                  masks_of (-5) P = Ok masks /\ shape masks = [1; 2; 1].
Proof.
  exact (forward_nc_from_the_end (ops := Demo.ops) (ext := Demo.ext)
           Demo.from_end_self Demo.x Demo.preds Demo.protos 1 7 2
           eq_refl eq_refl ltac:(cbn; lia) ltac:(cbn; lia)).
Defined.

Lemma forward_returns_iff_witness :
  (exists det p, fst (forward Demo.self Demo.x) = Ok (det, p)) /\
  (exists msg, fst (forward Demo.flat_self Demo.x) = Raise (RuntimeError msg)).
Proof.
  split.
  - apply (proj1 (forward_returns_iff (ops := Demo.ops) (laws := demo_laws)
                    (ext := Demo.ext) Demo.self Demo.x)).
    exists Demo.preds, Demo.protos. split; reflexivity.
  - exact (proj2 (forward_returns_iff (ops := Demo.ops) (laws := demo_laws)
                    (ext := Demo.ext) Demo.flat_self Demo.x)
             (Demo.tensor [7; 2]) Demo.protos eq_refl ltac:(cbn; lia)).
Defined.

Lemma init_export_attributes_witness :
  __init__ Notebook.weights 80 = Ok Demo.ready /\
  getattr Demo.head "dynamic" = Some (PyBool false) /\
  getattr Demo.head "export" = Some (PyBool true) /\
  getattr Demo.head "format" = Some (PyStr "onnx") /\
  getattr Demo.c2f "forward" = Some (PyMethod "forward_split").
Proof.
  pose proof (init_export_attributes (ops := Demo.ops) (ext := Demo.ext)
                Notebook.weights 80 Demo.ready ltac:(reflexivity)) as H.
  destruct (H "model.22" Demo.head ltac:(simpl; auto)) as [Hhead _].
  destruct (H "model.2" Demo.c2f ltac:(simpl; auto)) as [_ Hc2f].
  destruct (Hhead ltac:(reflexivity)) as (H1 & H2 & H3).
  split; [reflexivity|]. split; [exact H1|]. split; [exact H2|].
  split; [exact H3|]. apply Hc2f; reflexivity.
Defined.

Lemma init_touches_only_witness :
  exists self,
    __init__ Notebook.weights 80 = Ok self /\
    nc self = 80%Z /\
    map fst (named_modules (model self)) = [""; "model.0.conv"; "model.2"; "model.22"] /\
    map requires_grad (parameters (model self)) = [false; false].
Proof.
  destruct (init_touches_only (ops := Demo.ops) (ext := Demo.ext)
              Notebook.weights 80
              (Demo.net (Demo.tensor [1; 7; 2]) (Demo.tensor [1; 2; 2; 2]))
              ltac:(reflexivity))
    as (self & H1 & H2 & H3 & _ & H5 & _).
  exists self. split; [exact H1|]. split; [exact H2|].
  split; [exact H5|]. now rewrite H3.
Defined.

Lemma init_on_device_witness :
  Forall (fun p => device (value p) = cpu) (parameters (model Demo.ready)).
Proof.
  exact (init_on_device (ops := Demo.ops) (ext := Demo.ext)
           Notebook.weights 80 Demo.ready
           (fun n d H => H) ltac:(reflexivity)).
Defined.

Lemma run_cell_shapes_witness :
  run_cell (ext := Demo.no_weights) Demo.x
  = Raise (PyExn "FileNotFoundError" "yolov8l-seg.pt") /\
  run_cell (ext := Demo.ext) Demo.x = Ok ([1; 2; 8], [1; 2; 2; 2]) /\
  exists self preds protos B C A,
    __init__ "yolov8l-seg.pt" 80 = Ok self /\
    fst (call (model self) Demo.x) = Ok (preds, protos) /\
    shape preds = [B; C; A] /\
    [1; 2; 8] = [B; A; C + 1] /\
    [1; 2; 2; 2] = shape protos.
Proof.
  split; [|split].
  - exact (proj1 (run_cell_shapes (ops := Demo.ops) (laws := demo_laws)
                    (ext := Demo.no_weights) Demo.x)
             (PyExn "FileNotFoundError" "yolov8l-seg.pt") eq_refl).
  - exact (proj1 (proj2 (run_cell_shapes (ops := Demo.ops) (laws := demo_laws)
                           (ext := Demo.ext) Demo.x))
             Demo.ready (Demo.tensor [1; 7; 2]) (Demo.tensor [1; 2; 2; 2]) 1 7 2
             ltac:(reflexivity) ltac:(reflexivity) ltac:(reflexivity)).
  - exact (proj2 (proj2 (run_cell_shapes (ops := Demo.ops) (laws := demo_laws)
                           (ext := Demo.ext) Demo.x))
             [1; 2; 8] [1; 2; 2; 2] ltac:(reflexivity)).
Defined.

(** * [forward] on the store *)

(** ** Views and the values they have *)

Section StoreFacts.

Context {V : Type} {ops : TorchOps V} {laws : TorchLaws ops}.

Lemma dot_row_major (s : list nat) :
  forall idx, Mem.dot idx (Mem.row_major s) = offset s idx.
Proof.
  induction s as [|n s IH]; intros [|i idx]; simpl; try reflexivity.
  now rewrite IH.
Qed.

(** Adding storages leaves what an allocated view reads. *)
Lemma read_app (h fresh : Mem.Store V) (t : Mem.View) idx :
  Mem.storage t < length h ->
  Mem.read (h ++ fresh) t idx = Mem.read h t idx.
Proof. intros H. unfold Mem.read. now rewrite app_nth1. Qed.

Lemma load_app (h fresh : Mem.Store V) (t : Mem.View) :
  Mem.allocated h t -> Mem.load (h ++ fresh) t = Mem.load h t.
Proof.
  intros [H _]. unfold Mem.load. apply tabulate_ext. intros idx _.
  now apply read_app.
Qed.

Lemma allocated_app (h fresh : Mem.Store V) (t : Mem.View) :
  Mem.allocated h t -> Mem.allocated (h ++ fresh) t.
Proof.
  intros [H L]. split; [|exact L]. rewrite length_app. lia.
Qed.

(** A storage just allocated, seen through a row-major view. *)
Lemma load_fresh (h : Mem.Store V) (s : list nat) dt dv (f : list nat -> V) :
  Mem.load (h ++ [build s f]) (Mem.mkView (length h) 0 s (Mem.row_major s) dt dv)
  = tabulate s dt dv f.
Proof.
  unfold Mem.load. cbn [Mem.sizes Mem.vdtype Mem.vdevice].
  apply tabulate_ext. intros idx Hidx. unfold Mem.read.
  cbn [Mem.storage Mem.base Mem.strides].
  rewrite nth_middle, dot_row_major. now apply nth_build.
Qed.

Lemma slice_stop_le (s : slice) (C : nat) : slice_stop s C <= C.
Proof.
  unfold slice_stop. destruct (stop s) as [j|]; [|lia].
  unfold clamp. destruct (j <? 0)%Z eqn:E; [apply Z.ltb_lt in E|]; lia.
Qed.

(** The view [permute((0, 2, 1))] makes has the value [permute] gives. *)
Lemma load_permute (t : Mem.View) B C A :
  Mem.sizes t = [B; C; A] ->
  length (Mem.strides t) = 3 ->
  exists t',
    Mem.permute t [0; 2; 1] = Ok t' /\
    Mem.storage t' = Mem.storage t /\
    Mem.sizes t' = [B; A; C] /\
    length (Mem.strides t') = 3 /\
    Mem.vdtype t' = Mem.vdtype t /\
    Mem.vdevice t' = Mem.vdevice t /\
    forall h : Mem.Store V,
      permute (Mem.load h t) [0; 2; 1] = Ok (Mem.load h t').
Proof.
  intros Hs Hst.
  destruct (Mem.strides t) as [|s0 [|s1 [|s2 [|? ?]]]] eqn:Est; try discriminate.
  unfold Mem.permute. rewrite Hs, Est. cbn.
  eexists. split; [reflexivity|]. cbn.
  repeat (split; [reflexivity|]).
  intros h. rewrite (permute_021 _ B C A) by (cbn; exact Hs).
  f_equal. unfold Mem.load. cbn [Mem.sizes Mem.vdtype Mem.vdevice dtype device tabulate].
  apply tabulate_ext. intros idx Hidx.
  apply in_range3_inv in Hidx as (b & a & c & -> & Hb & Ha & Hc).
  change (unpermute [0; 2; 1] [b; a; c]) with [b; c; a].
  rewrite Hs. rewrite item_tabulate by (apply in_range3; auto).
  unfold Mem.read. cbn [Mem.base Mem.storage Mem.strides]. rewrite Est.
  f_equal. cbn [Mem.dot]. lia.
Qed.

(** The view a slice of the last of three axes makes has the value
    [getitem] gives. *)
Lemma load_getitem (t : Mem.View) (s : slice) B A C :
  Mem.sizes t = [B; A; C] ->
  length (Mem.strides t) = 3 ->
  exists t',
    Mem.getitem t [full; full; s] = Ok t' /\
    Mem.storage t' = Mem.storage t /\
    Mem.sizes t' = [B; A; slice_len s C] /\
    length (Mem.strides t') = 3 /\
    Mem.vdtype t' = Mem.vdtype t /\
    Mem.vdevice t' = Mem.vdevice t /\
    forall h : Mem.Store V,
      getitem (Mem.load h t) [full; full; s] = Ok (Mem.load h t').
Proof.
  intros Hs Hst.
  destruct (Mem.strides t) as [|s0 [|s1 [|s2 [|? ?]]]] eqn:Est; try discriminate.
  unfold Mem.getitem. rewrite Hs, Est.
  cbn [length Nat.ltb Nat.leb slice_shape slice_starts].
  replace (slice_len full B) with B by (unfold slice_len; cbn; lia).
  replace (slice_len full A) with A by (unfold slice_len; cbn; lia).
  eexists. split; [reflexivity|].
  cbn [Mem.storage Mem.sizes Mem.strides Mem.vdtype Mem.vdevice length].
  repeat (split; [reflexivity|]).
  intros h. rewrite (getitem_last _ _ B A C) by (cbn; exact Hs).
  f_equal. unfold Mem.load.
  cbn [Mem.sizes Mem.vdtype Mem.vdevice dtype device tabulate].
  apply tabulate_ext. intros idx Hidx.
  apply in_range3_inv in Hidx as (b & a & c & -> & Hb & Ha & Hc).
  cbn [add_index Nat.add].
  pose proof (slice_stop_le s C) as Hle. unfold slice_len in Hc.
  rewrite Hs. rewrite item_tabulate by (apply in_range3; lia).
  unfold Mem.read. cbn [Mem.base Mem.storage Mem.strides]. rewrite Est.
  change (slice_start full B) with 0. change (slice_start full A) with 0.
  f_equal. cbn [Mem.dot]. nia.
Qed.

Lemma fits_load (h : Mem.Store V) B A dt dv (t : Mem.View) :
  Mem.fits B A dt dv t -> fits B A dt dv (Mem.load h t).
Proof. intros (k & Hs & Hd & Hv). exists k. now cbn. Qed.

Lemma select_load (h : Mem.Store V) dt B A (ts : list Mem.View) :
  Forall (fun t => exists k, Mem.sizes t = [B; A; k]) ts ->
  forall b a c, b < B -> a < A ->
  c < fold_right Nat.add 0 (map (fun t => nth 2 (Mem.sizes t) 0) ts) ->
  Mem.select h dt 2 ts [b; a; c] = select dt 2 (map (Mem.load h) ts) [b; a; c].
Proof.
  induction 1 as [|t ts (k & Hk) _ IH]; intros b a c Hb Ha Hc; [reflexivity|].
  cbn [Mem.select select map nth shape Mem.load tabulate dtype] in *.
  rewrite Hk in *. cbn [nth] in *.
  destruct (c <? k) eqn:E.
  - apply Nat.ltb_lt in E. f_equal.
    unfold Mem.load. rewrite Hk.
    now rewrite item_tabulate by (apply in_range3; auto).
  - apply Nat.ltb_ge in E. cbn [set_nth]. apply IH; auto.
    cbn [fold_right] in Hc. lia.
Qed.

(** [torch.cat] on the store, along the last of three axes: it
    allocates one storage, and the view it returns has the value [cat]
    gives on the values of its arguments. *)
Lemma cat_exec (w : Mem.World V) B A dt dv (t0 : Mem.View) (rest : list Mem.View) :
  Forall (Mem.fits B A dt dv) (t0 :: rest) ->
  exists det d,
    Mem.cat (t0 :: rest) 2 w
    = (Ok det,
       Mem.mkWorld (Mem.store w ++ [d]) (Mem.self_nc w) (Mem.self_model w)) /\
    Mem.storage det = length (Mem.store w) /\
    length (Mem.strides det) = length (Mem.sizes det) /\
    Mem.fills (Mem.store w ++ [d]) det /\
    cat (map (Mem.load (Mem.store w)) (t0 :: rest)) 2
    = Ok (Mem.load (Mem.store w ++ [d]) det).
Proof.
  intros F.
  assert (F' : Forall (fits B A dt dv) (map (Mem.load (Mem.store w)) (t0 :: rest))).
  { rewrite Forall_map. eapply Forall_impl; [|exact F].
    intros t. apply fits_load. }
  assert (Fs : Forall (fun t => exists k, Mem.sizes t = [B; A; k]) (t0 :: rest)).
  { eapply Forall_impl; [|exact F]. intros t (k & Hk & _). eauto. }
  inversion F as [|? ? (k0 & Hs0 & Hd0 & Hv0) Hrest]; subst.
  pose proof (proj1 (Forall_forall _ _) Hrest) as Hin.
  unfold Mem.cat. rewrite Hs0. cbn [length Nat.ltb Nat.leb negb].
  replace (forallb _ rest) with true.
  2:{ symmetry. apply forallb_forall. intros t Ht.
      destruct (Hin _ Ht) as (k & Hs & _).
      rewrite Hs. unfold same_but. simpl. now rewrite !Nat.eqb_refl. }
  replace (forallb _ rest) with true.
  2:{ symmetry. apply forallb_forall. intros t Ht.
      destruct (Hin _ Ht) as (k & _ & _ & Hv).
      rewrite Hv. apply Device_eqb_refl. }
  cbn [negb set_nth].
  assert (Hp : fold_left promote_types (map Mem.vdtype rest) (Mem.vdtype t0)
               = Mem.vdtype t0).
  { clear - laws Hrest. induction Hrest as [|t ts (k & _ & Ht & _) _ IH];
      simpl; [reflexivity|]. now rewrite Ht, promote_types_same. }
  rewrite Hp.
  eexists. eexists. split; [reflexivity|].
  split; [reflexivity|].
  split; [cbn [Mem.strides Mem.sizes Mem.row_major length]; reflexivity|].
  split.
  { split; [reflexivity|]. split; [reflexivity|].
    cbn [Mem.storage Mem.sizes]. rewrite nth_middle. apply length_build. }
  rewrite load_fresh.
  change (map (Mem.load (Mem.store w)) (t0 :: rest))
    with (Mem.load (Mem.store w) t0 :: map (Mem.load (Mem.store w)) rest).
  rewrite (cat_last B A (Mem.vdtype t0) (Mem.vdevice t0)) by exact F'.
  f_equal.
  change (Mem.load (Mem.store w) t0 :: map (Mem.load (Mem.store w)) rest)
    with (map (Mem.load (Mem.store w)) (t0 :: rest)).
  assert (Et : fold_right Nat.add 0
                 (map channels (map (Mem.load (Mem.store w)) (t0 :: rest)))
               = fold_right Nat.add 0
                   (map (fun t => nth 2 (Mem.sizes t) 0) (t0 :: rest))).
  { rewrite map_map. reflexivity. }
  rewrite Et. apply tabulate_ext. intros idx Hidx.
  apply in_range3_inv in Hidx as (b & a & c & -> & Hb & Ha & Hc).
  symmetry. now apply (select_load _ _ B A).
Qed.

End StoreFacts.

(** ** What [forward] writes *)

Section StoreFrame.

Context {V : Type} {ops : TorchOps V} {lib : Mem.Library V}.

Lemma extends_refl (w : Mem.World V) : Mem.extends w w.
Proof. repeat split. exists []. now rewrite app_nil_r. Qed.

Lemma extends_trans (w1 w2 w3 : Mem.World V) :
  Mem.extends w1 w2 -> Mem.extends w2 w3 -> Mem.extends w1 w3.
Proof.
  intros (N1 & M1 & f1 & S1) (N2 & M2 & f2 & S2).
  split; [congruence|]. split; [congruence|].
  exists (f1 ++ f2). now rewrite S2, S1, app_assoc.
Qed.

Lemma frames_ret {A : Type} (a : A) : Mem.frames (V := V) (Mem.ret a).
Proof. intros w. apply extends_refl. Qed.

Lemma frames_pure {A : Type} (r : result A) : Mem.frames (V := V) (Mem.pure r).
Proof. intros w. apply extends_refl. Qed.

Lemma frames_get_nc : Mem.frames (V := V) Mem.get_nc.
Proof. intros w. apply extends_refl. Qed.

Lemma frames_ones size dv dt : Mem.frames (V := V) (Mem.ones size dv dt).
Proof. intros w. repeat split. cbn. eauto. Qed.

Lemma frames_cat ts dim : Mem.frames (V := V) (Mem.cat ts dim).
Proof.
  intros w. unfold Mem.cat. destruct ts as [|t0 rest]; [apply extends_refl|].
  destruct (negb (dim <? length (Mem.sizes t0))); [apply extends_refl|].
  destruct (negb (forallb _ rest)); [apply extends_refl|].
  destruct (negb (forallb _ rest)); [apply extends_refl|].
  repeat split. cbn. eauto.
Qed.

Lemma frames_mbind {A B : Type} (c : Mem.M V A) (k : A -> Mem.M V B) :
  Mem.frames c -> (forall a, Mem.frames (k a)) -> Mem.frames (Mem.mbind c k).
Proof.
  intros Hc Hk w. unfold Mem.mbind. specialize (Hc w).
  destruct (c w) as [[a|e] w']; cbn [snd] in *; [|exact Hc].
  eapply extends_trans; [exact Hc|apply Hk].
Qed.

(** After the call of the network, [forward] only adds storages: the
    fields of the wrapper and every storage there is stay as the call
    left them. *)
Lemma forward_frames (x : Mem.View) (w : Mem.World V) :
  Mem.extends (snd (Mem.call_model x w)) (snd (Mem.forward x w)).
Proof.
  unfold Mem.forward. unfold Mem.mbind at 1.
  destruct (Mem.call_model x w) as [[[preds protos]|e] w0]; cbn [snd];
    [|apply extends_refl].
  repeat (first [ apply frames_mbind; [|intro]
                | apply frames_pure | apply frames_get_nc
                | apply frames_ones | apply frames_cat | apply frames_ret ]).
Qed.

(** What an allocated view reads is the same in a world that extends
    the one it was allocated in. *)
Lemma load_extends (w w' : Mem.World V) (t : Mem.View) :
  Mem.extends w w' ->
  Mem.allocated (Mem.store w) t ->
  Mem.load (Mem.store w') t = Mem.load (Mem.store w) t /\
  Mem.allocated (Mem.store w') t.
Proof.
  intros (_ & _ & fresh & ->) Ha. split.
  - now apply load_app.
  - now apply allocated_app.
Qed.

End StoreFrame.

(** ** The store-level [forward] computes [detections] *)

Section StoreRefine.

Context {V : Type} {ops : TorchOps V} {laws : TorchLaws ops} {lib : Mem.Library V}.

(** A pass that returns predictions with three axes, in a storage
    there is: [forward] allocates the constant and the detections, in
    this order, and the detections have the value [detections] gives. *)
Lemma forward_exec (x : Mem.View) (w w0 : Mem.World V) preds protos B C A :
  Mem.call_model x w = (Ok (preds, protos), w0) ->
  Mem.sizes preds = [B; C; A] ->
  Mem.allocated (Mem.store w0) preds ->
  let d1 := repeat one (numel [B; A; 1]) in
  exists det d2,
    Mem.forward x w
    = (Ok (det, protos),
       Mem.mkWorld (Mem.store w0 ++ [d1] ++ [d2])
         (Mem.self_nc w0) (Mem.self_model w0)) /\
    Mem.storage det = S (length (Mem.store w0)) /\
    Mem.allocated (Mem.store w0 ++ [d1] ++ [d2]) det /\
    Mem.fills (Mem.store w0 ++ [d1] ++ [d2]) det /\
    detections (Mem.self_nc w0) (Mem.load (Mem.store w0) preds)
    = Ok (Mem.load (Mem.store w0 ++ [d1] ++ [d2]) det).
Proof.
  intros Hcall Hs [Hst Hlen]. rewrite Hs in Hlen. cbn [length] in Hlen.
  destruct (load_permute (V := V) preds B C A Hs Hlen)
    as (vP & HP & SP & ZP & LP & DP & VP & RP).
  destruct (load_getitem (V := V) vP (mkSlice None (Some 4%Z)) B A C ZP LP)
    as (vb & Hb & Sb & Zb & Lb & Db & Vb & Rb).
  destruct (load_getitem (V := V) vP
              (mkSlice (Some 4%Z) (Some (Mem.self_nc w0 + 4)%Z)) B A C ZP LP)
    as (vc & Hc & Sc & Zc & Lc & Dc & Vc & Rc).
  destruct (load_getitem (V := V) vP
              (mkSlice (Some (Mem.self_nc w0 + 4)%Z) None) B A C ZP LP)
    as (vm & Hm & Sm & Zm & Lm & Dm & Vm & Rm).
  set (h0 := Mem.store w0) in *.
  set (d1 := repeat (one (V := V)) (numel [B; A; 1])).
  set (vo := Mem.mkView (length h0) 0 [B; A; 1] (Mem.row_major [B; A; 1])
               (Mem.vdtype vb) (Mem.vdevice vb)).
  set (w1 := Mem.mkWorld (h0 ++ [d1]) (Mem.self_nc w0) (Mem.self_model w0)).
  assert (F : Forall (Mem.fits B A (Mem.vdtype vb) (Mem.vdevice vb))
                [vb; vo; vc; vm]).
  { repeat constructor.
    - eexists. now split; [exact Zb|].
    - eexists. now split; [reflexivity|].
    - eexists. split; [exact Zc|]. split; congruence.
    - eexists. split; [exact Zm|]. split; congruence. }
  destruct (cat_exec w1 B A _ _ vb [vo; vc; vm] F)
    as (det & d2 & Hcat & Sdet & Ldet & Fdet & Rcat).
  exists det, d2.
  split; [|split; [|split; [|split]]].
  2:{ rewrite Sdet. cbn [Mem.store w1]. rewrite length_app. cbn. lia. }
  3:{ cbn [Mem.store w1] in Fdet. now rewrite <- app_assoc in Fdet. }
  - unfold Mem.forward, Mem.mbind. rewrite Hcall.
    cbn [Mem.pure Mem.get_nc Mem.ret]. rewrite HP, Hb, Hc, Hm.
    unfold Mem.shape_at. rewrite Zb. cbn [nth_error].
    change (Mem.ones [B; A; 1] (Mem.vdevice vb) (Mem.vdtype vb) w0) with (Ok vo, w1).
    cbv beta iota. rewrite Hcat. cbv beta iota. unfold Mem.ret.
    cbn [Mem.store Mem.self_nc Mem.self_model w1].
    now rewrite <- app_assoc.
  - split; [|exact Ldet]. rewrite Sdet. cbn [Mem.store w1].
    rewrite !length_app. cbn. lia.
  - unfold detections. rewrite RP. cbn [bind].
    rewrite Rb, Rc, Rm. cbn [bind].
    unfold shape_at.
    change (shape (Mem.load h0 vb)) with (Mem.sizes vb).
    change (device (Mem.load h0 vb)) with (Mem.vdevice vb).
    change (dtype (Mem.load h0 vb)) with (Mem.vdtype vb).
    rewrite Zb. cbn [nth_error bind].
    assert (Ev : forall v, Mem.storage v = Mem.storage preds ->
                           length (Mem.strides v) = 3 ->
                           (exists k, Mem.sizes v = [B; A; k]) ->
                           Mem.load h0 v = Mem.load (Mem.store w1) v).
    { intros v Sv Lv (k & Zv). symmetry. cbn [Mem.store w1].
      apply load_app. split; [rewrite Sv; exact Hst|now rewrite Zv]. }
    assert (Eo : ones [B; A; 1] (Mem.vdevice vb) (Mem.vdtype vb)
                 = Mem.load (Mem.store w1) vo).
    { cbn [Mem.store w1]. unfold d1. rewrite <- build_const.
      unfold vo. now rewrite load_fresh. }
    rewrite (Ev vb), (Ev vc), (Ev vm), Eo by (eauto; congruence).
    change [Mem.load (Mem.store w1) vb; Mem.load (Mem.store w1) vo;
            Mem.load (Mem.store w1) vc; Mem.load (Mem.store w1) vm]
      with (map (Mem.load (Mem.store w1)) [vb; vo; vc; vm]).
    rewrite Rcat. cbn [Mem.store w1]. now rewrite <- app_assoc.
Qed.

End StoreRefine.

(** ** How many storages [forward] adds *)

Section StoreCount.

Context {V : Type} {ops : TorchOps V} {lib : Mem.Library V}.

Lemma allocates_pure {A : Type} (r : result A) k :
  Mem.allocates (V := V) k (Mem.pure r).
Proof. intros w. exists []. cbn. rewrite app_nil_r. split; [reflexivity|lia]. Qed.

Lemma allocates_ret {A : Type} (a : A) k : Mem.allocates (V := V) k (Mem.ret a).
Proof. intros w. exists []. cbn. rewrite app_nil_r. split; [reflexivity|lia]. Qed.

Lemma allocates_get_nc k : Mem.allocates (V := V) k Mem.get_nc.
Proof. intros w. exists []. cbn. rewrite app_nil_r. split; [reflexivity|lia]. Qed.

Lemma allocates_ones size dv dt : Mem.allocates (V := V) 1 (Mem.ones size dv dt).
Proof. intros w. eexists. cbn. split; [reflexivity|]. cbn. lia. Qed.

Lemma allocates_cat ts dim : Mem.allocates (V := V) 1 (Mem.cat ts dim).
Proof.
  assert (Hnil : forall w : Mem.World V,
             exists fresh, Mem.store w = Mem.store w ++ fresh /\ length fresh <= 1).
  { intros w. exists []. rewrite app_nil_r. split; [reflexivity|cbn; lia]. }
  intros w. unfold Mem.cat. destruct ts as [|t0 rest]; [apply Hnil|].
  destruct (negb (dim <? length (Mem.sizes t0))); [apply Hnil|].
  destruct (negb (forallb _ rest)); [apply Hnil|].
  destruct (negb (forallb _ rest)); [apply Hnil|].
  eexists. cbn. split; [reflexivity|]. cbn. lia.
Qed.

Lemma allocates_mbind {A B : Type} (c : Mem.M V A) (f : A -> Mem.M V B) j k :
  Mem.allocates j c -> (forall a, Mem.allocates k (f a)) ->
  Mem.allocates (j + k) (Mem.mbind c f).
Proof.
  intros Hc Hf w. unfold Mem.mbind. destruct (Hc w) as (f1 & E1 & L1).
  destruct (c w) as [[a|e] w1]; cbn [snd] in *.
  - destruct (Hf a w1) as (f2 & E2 & L2).
    exists (f1 ++ f2). rewrite E2, E1, app_assoc, length_app.
    split; [reflexivity|lia].
  - exists f1. split; [exact E1|lia].
Qed.

(** After the call of the network [forward] adds at most two storages:
    the constant and the detections. *)
Lemma forward_allocates (x : Mem.View) (w : Mem.World V) :
  exists fresh,
    Mem.store (snd (Mem.forward x w))
    = Mem.store (snd (Mem.call_model x w)) ++ fresh /\
    length fresh <= 2.
Proof.
  unfold Mem.forward. unfold Mem.mbind at 1.
  destruct (Mem.call_model x w) as [[[preds protos]|e] w0]; cbn [snd].
  2:{ exists []. rewrite app_nil_r. split; [reflexivity|cbn; lia]. }
  revert w0. fold (Mem.allocates (V := V) (A := Mem.View * Mem.View) 2).
  do 2 (apply (allocates_mbind _ _ 0 2); [apply allocates_pure|intro]).
  apply (allocates_mbind _ _ 0 2); [apply allocates_get_nc|intro].
  apply (allocates_mbind _ _ 0 2); [apply allocates_pure|intro].
  apply (allocates_mbind _ _ 0 2); [apply allocates_get_nc|intro].
  do 3 (apply (allocates_mbind _ _ 0 2); [apply allocates_pure|intro]).
  apply (allocates_mbind _ _ 1 1); [apply allocates_ones|intro].
  apply (allocates_mbind _ _ 1 0); [apply allocates_cat|intro].
  apply allocates_ret.
Qed.

End StoreCount.

(** ** The outcome of [forward] on the store *)

Section StoreOutcome.

Context {V : Type} {ops : TorchOps V} {laws : TorchLaws ops} {lib : Mem.Library V}.

Lemma call_model_nc (x : Mem.View) (w : Mem.World V) :
  Mem.self_nc (snd (Mem.call_model x w)) = Mem.self_nc w.
Proof.
  unfold Mem.call_model.
  destruct (Mem.pass (Mem.self_model w) (Mem.store w) x) as [r [m h]].
  reflexivity.
Qed.

Lemma forward_raise_mem (x : Mem.View) (w w0 : Mem.World V) e :
  Mem.call_model x w = (Raise e, w0) -> Mem.forward x w = (Raise e, w0).
Proof. intros H. unfold Mem.forward, Mem.mbind. now rewrite H. Qed.

(** Predictions that do not have three axes: [permute] raises, on the
    store as on values, and nothing is allocated. *)
Lemma forward_bad_rank_mem (x : Mem.View) (w w0 : Mem.World V) preds protos :
  Mem.call_model x w = (Ok (preds, protos), w0) ->
  length (Mem.sizes preds) <> 3 ->
  exists e,
    Mem.forward x w = (Raise e, w0) /\
    forall (h : Mem.Store V) nc, detections nc (Mem.load h preds) = Raise e.
Proof.
  intros Hcall Hr.
  exists (RuntimeError "permute: number of dims does not match"). split.
  - unfold Mem.forward, Mem.mbind. rewrite Hcall. cbn [Mem.pure].
    unfold Mem.permute. cbn [length].
    replace (Nat.eqb 3 (length (Mem.sizes preds))) with false
      by (symmetry; apply Nat.eqb_neq; congruence).
    reflexivity.
  - intros h nc. unfold detections, permute, ndim.
    change (shape (Mem.load h preds)) with (Mem.sizes preds). cbn [length].
    replace (Nat.eqb 3 (length (Mem.sizes preds))) with false
      by (symmetry; apply Nat.eqb_neq; congruence).
    reflexivity.
Qed.

Lemma three_axes (s : list nat) :
  length s = 3 -> exists B C A, s = [B; C; A].
Proof.
  destruct s as [|B [|C [|A [|? ?]]]]; try discriminate. eauto.
Qed.

(** The pair [forward] returns, read in the world it leaves, is what
    [assemble] makes of the pair the network returned, read in the
    world the network left. *)
Lemma forward_outcome (x : Mem.View) (w : Mem.World V) :
  (forall p q, fst (Mem.call_model x w) = Ok (p, q) ->
     Mem.allocated (Mem.store (snd (Mem.call_model x w))) p /\
     Mem.allocated (Mem.store (snd (Mem.call_model x w))) q) ->
  Mem.outcome (Mem.forward x w)
  = assemble (Mem.self_nc w) (Mem.outcome (Mem.call_model x w)).
Proof.
  intros Hret. pose proof (call_model_nc x w) as Hnc.
  destruct (Mem.call_model x w) as [[[p q]|e] w0] eqn:E; cbn [fst snd] in *.
  - destruct (Hret p q eq_refl) as [Hp Hq].
    destruct (Nat.eq_dec (length (Mem.sizes p)) 3) as [H3|H3].
    + destruct (three_axes _ H3) as (B & C & A & Hs).
      destruct (forward_exec x w w0 p q B C A E Hs Hp)
        as (det & d2 & Hf & _ & _ & _ & Hdet).
      rewrite Hf. unfold Mem.outcome, assemble.
      cbn [fst snd Mem.store bind]. rewrite <- Hnc, Hdet. cbn [bind].
      now rewrite (load_app _ _ q Hq).
    + destruct (forward_bad_rank_mem x w w0 p q E H3) as (e & Hf & Hd).
      rewrite Hf. unfold Mem.outcome, assemble. cbn [fst snd bind].
      now rewrite Hd.
  - rewrite (forward_raise_mem x w w0 e E). reflexivity.
Qed.

(** The two tensors [forward] returns exist in the world it leaves. *)
Lemma forward_returns_allocated (x : Mem.View) (w : Mem.World V) det protos :
  (forall p q, fst (Mem.call_model x w) = Ok (p, q) ->
     Mem.allocated (Mem.store (snd (Mem.call_model x w))) p /\
     Mem.allocated (Mem.store (snd (Mem.call_model x w))) q) ->
  fst (Mem.forward x w) = Ok (det, protos) ->
  Mem.allocated (Mem.store (snd (Mem.forward x w))) det /\
  Mem.allocated (Mem.store (snd (Mem.forward x w))) protos.
Proof.
  intros Hret Hf.
  destruct (Mem.call_model x w) as [[[p q]|e] w0] eqn:E; cbn [fst snd] in *.
  - destruct (Hret p q eq_refl) as [Hp Hq].
    destruct (Nat.eq_dec (length (Mem.sizes p)) 3) as [H3|H3].
    + destruct (three_axes _ H3) as (B & C & A & Hs).
      destruct (forward_exec x w w0 p q B C A E Hs Hp)
        as (det' & d2 & Hf' & _ & Hdet & _ & _).
      rewrite Hf' in Hf |- *. cbn [fst snd Mem.store] in *.
      injection Hf as <- <-. split; [exact Hdet|].
      now apply allocated_app.
    + destruct (forward_bad_rank_mem x w w0 p q E H3) as (e & Hf' & _).
      rewrite Hf' in Hf. discriminate.
  - rewrite (forward_raise_mem x w w0 e E) in Hf. discriminate.
Qed.

(** The wrapper on values returns what [assemble] makes of the
    network's outcome: the store-level [forward] and the one on values
    agree wherever the two networks do. *)
Lemma forward_assemble {ext : Ultralytics V} (self : WarpModel V) (xv : Tensor V) :
  fst (forward self xv) = assemble (nc self) (fst (call (model self) xv)).
Proof.
  unfold forward, assemble, detections.
  destruct (call (model self) xv) as [[[p q]|e] [m x1]]; cbn [fst bind nc];
    [|reflexivity].
  destruct (permute p [0; 2; 1]) as [P|]; cbn [bind]; [|reflexivity].
  destruct (getitem P [full; full; mkSlice None (Some 4%Z)]) as [b|];
    cbn [bind]; [|reflexivity].
  destruct (getitem P _) as [c|]; cbn [bind]; [|reflexivity].
  destruct (getitem P _) as [k|]; cbn [bind]; [|reflexivity].
  destruct (shape_at b 0); cbn [bind]; [|reflexivity].
  destruct (shape_at b 1); cbn [bind]; reflexivity.
Qed.

Lemma forward_refines {ext : Ultralytics V} (self : WarpModel V) (xv : Tensor V)
  (x : Mem.View) (w : Mem.World V) :
  (forall p q, fst (Mem.call_model x w) = Ok (p, q) ->
     Mem.allocated (Mem.store (snd (Mem.call_model x w))) p /\
     Mem.allocated (Mem.store (snd (Mem.call_model x w))) q) ->
  nc self = Mem.self_nc w ->
  fst (call (model self) xv) = Mem.outcome (Mem.call_model x w) ->
  fst (forward self xv) = Mem.outcome (Mem.forward x w).
Proof.
  intros Hret Hnc Hcall.
  now rewrite forward_assemble, forward_outcome, Hnc, Hcall.
Qed.

End StoreOutcome.

(** ** Calls of [forward] one after the other *)

Section StoreCalls.

Context {V : Type} {ops : TorchOps V} {laws : TorchLaws ops} {lib : Mem.Library V}.
Context (Hpass : Mem.PassContract lib).

(** A tensor there was before the call is there after it, with the
    value it had. *)
Lemma forward_keeps_tensors (x : Mem.View) (w : Mem.World V) (t : Mem.View) :
  Mem.allocated (Mem.store w) t ->
  Mem.allocated (Mem.store (snd (Mem.forward x w))) t /\
  Mem.load (Mem.store (snd (Mem.forward x w))) t = Mem.load (Mem.store w) t.
Proof.
  intros Ht. destruct (Mem.pass_keeps w x t Ht) as [Ha Hl].
  destruct (load_extends _ _ t (forward_frames x w) Ha) as [Hl' Ha'].
  split; [exact Ha'|congruence].
Qed.

Lemma forward_nc (x : Mem.View) (w : Mem.World V) :
  Mem.self_nc (snd (Mem.forward x w)) = Mem.self_nc w.
Proof.
  destruct (forward_frames x w) as (N & _ & _). rewrite N. apply call_model_nc.
Qed.

Lemma forward_params (x : Mem.View) (w : Mem.World V) :
  Mem.net_params (Mem.self_model (snd (Mem.forward x w)))
  = Mem.net_params (Mem.self_model w).
Proof.
  destruct (forward_frames x w) as (_ & M & _). rewrite M.
  apply Mem.pass_keeps_params.
Qed.

Lemma forward_weights (x : Mem.View) (w : Mem.World V) :
  Forall (Mem.allocated (Mem.store w)) (Mem.net_params (Mem.self_model w)) ->
  Mem.weights (snd (Mem.forward x w)) = Mem.weights w.
Proof.
  intros F. unfold Mem.weights. rewrite forward_params.
  apply map_ext_in. intros t Ht.
  apply forward_keeps_tensors. exact (proj1 (Forall_forall _ _) F t Ht).
Qed.

Lemma forward_same_network (x : Mem.View) (w : Mem.World V) :
  Forall (Mem.allocated (Mem.store w)) (Mem.net_params (Mem.self_model w)) ->
  Mem.same_network w (snd (Mem.forward x w)).
Proof.
  intros F. destruct (forward_frames x w) as (_ & M & _).
  split; [now apply forward_weights|]. rewrite M.
  split; [apply Mem.pass_keeps_training|apply Mem.pass_keeps_setup].
Qed.

Lemma same_network_trans (w1 w2 w3 : Mem.World V) :
  Mem.same_network w1 w2 -> Mem.same_network w2 w3 -> Mem.same_network w1 w3.
Proof.
  intros (A1 & B1 & C1) (A2 & B2 & C2). repeat split; congruence.
Qed.

Lemma same_network_refl (w : Mem.World V) : Mem.same_network w w.
Proof. repeat split. Qed.

(** Calls made before leave the wrapper's [nc], the network as a pass
    sees it, and every tensor there was. *)
Lemma after_calls_keeps_world (ys : list Mem.View) :
  forall w : Mem.World V,
  Forall (Mem.allocated (Mem.store w)) (Mem.net_params (Mem.self_model w)) ->
  Mem.self_nc (Mem.after_calls w ys) = Mem.self_nc w /\
  Mem.same_network w (Mem.after_calls w ys) /\
  forall t, Mem.allocated (Mem.store w) t ->
    Mem.allocated (Mem.store (Mem.after_calls w ys)) t /\
    Mem.load (Mem.store (Mem.after_calls w ys)) t = Mem.load (Mem.store w) t.
Proof.
  induction ys as [|y ys IH]; intros w F.
  - split; [reflexivity|]. split; [apply same_network_refl|]. now intros t Ht.
  - change (Mem.after_calls w (y :: ys))
      with (Mem.after_calls (snd (Mem.forward y w)) ys).
    assert (F1 : Forall (Mem.allocated (Mem.store (snd (Mem.forward y w))))
                   (Mem.net_params (Mem.self_model (snd (Mem.forward y w))))).
    { rewrite forward_params. eapply Forall_impl; [|exact F].
      intros t Ht. now apply forward_keeps_tensors. }
    destruct (IH _ F1) as (N & S & K).
    split; [rewrite N; apply forward_nc|].
    split; [eapply same_network_trans; [now apply forward_same_network|exact S]|].
    intros t Ht. destruct (forward_keeps_tensors y w t Ht) as [Ha Hl].
    destruct (K t Ha) as [Ha' Hl']. split; [exact Ha'|congruence].
Qed.

(** With the same [nc], the same network as a pass sees it and an
    argument of the same value, [forward] returns the same values. *)
Lemma forward_function (x x' : Mem.View) (w w' : Mem.World V) :
  Mem.self_nc w' = Mem.self_nc w ->
  Mem.same_network w w' ->
  Mem.load (Mem.store w') x' = Mem.load (Mem.store w) x ->
  Mem.outcome (Mem.forward x' w') = Mem.outcome (Mem.forward x w).
Proof.
  intros N S X.
  rewrite !forward_outcome by (intros p q; apply Mem.pass_returns).
  rewrite N. f_equal. now apply Mem.pass_function.
Qed.

End StoreCalls.

(** * The claims about effects and state *)

Section StoreClaims.

Context {V : Type} {ops : TorchOps V} {laws : TorchLaws ops} {lib : Mem.Library V}.

(** C5.  [forward] has no side effect of its own.  Across the whole
    call [nc] is unchanged, and [model] holds the network object, which
    no step but the pass itself writes to.  After the pass, the body of
    [forward] writes to no storage there is (so that every tensor keeps
    its value, the views it takes of the predictions notwithstanding)
    and adds at most two storages; when the pass returns predictions
    with three axes it adds exactly two, the constant and the
    detections, each a tensor of its own, and returns the prototypes
    as the very tensor the network returned.  Hence, for a network
    whose pass writes to no tensor there was and keeps its parameters,
    [training] flag and set-up, a call of [forward] leaves every
    tensor there was, the input among them, and the network's
    parameters, their values, [training] flag and set-up. *)
Theorem C5_no_side_effects (x : Mem.View) (w : Mem.World V) :
  let w0 := snd (Mem.call_model x w) in
  let w' := snd (Mem.forward x w) in
  Mem.self_nc w' = Mem.self_nc w /\
  Mem.self_model w' = Mem.self_model w0 /\
  (exists fresh, Mem.store w' = Mem.store w0 ++ fresh /\ length fresh <= 2) /\
  (forall t, Mem.allocated (Mem.store w0) t ->
     Mem.allocated (Mem.store w') t /\
     Mem.load (Mem.store w') t = Mem.load (Mem.store w0) t) /\
  (forall preds protos B C A,
     fst (Mem.call_model x w) = Ok (preds, protos) ->
     Mem.sizes preds = [B; C; A] ->
     Mem.allocated (Mem.store w0) preds ->
     exists det d,
       fst (Mem.forward x w) = Ok (det, protos) /\
       Mem.store w' = Mem.store w0 ++ [repeat one (numel [B; A; 1]); d] /\
       Mem.storage det = S (length (Mem.store w0)) /\
       Mem.fills (Mem.store w') det) /\
  (Mem.PassContract lib ->
     (forall t, Mem.allocated (Mem.store w) t ->
        Mem.allocated (Mem.store w') t /\
        Mem.load (Mem.store w') t = Mem.load (Mem.store w) t) /\
     (Mem.allocated (Mem.store w) x ->
      Mem.load (Mem.store w') x = Mem.load (Mem.store w) x) /\
     Mem.net_params (Mem.self_model w') = Mem.net_params (Mem.self_model w) /\
     (Forall (Mem.allocated (Mem.store w)) (Mem.net_params (Mem.self_model w)) ->
      Mem.weights w' = Mem.weights w) /\
     Mem.net_training (Mem.self_model w') = Mem.net_training (Mem.self_model w) /\
     Mem.setup (Mem.self_model w') = Mem.setup (Mem.self_model w)).
Proof.
  cbv zeta. pose proof (forward_frames x w) as Hfr.
  destruct Hfr as (N & M & _).
  split; [rewrite N; apply call_model_nc|].
  split; [exact M|].
  split; [apply forward_allocates|].
  split.
  { intros t Ht.
    destruct (load_extends _ _ t (forward_frames x w) Ht) as [Hl Ha]. now split. }
  split.
  { intros preds protos B C A Hcall Hs Hp.
    destruct (Mem.call_model x w) as [r w0] eqn:E. cbn [fst snd] in *. subst r.
    destruct (forward_exec x w w0 preds protos B C A E Hs Hp)
      as (det & d & Hf & Sdet & _ & Fdet & _).
    exists det, d. rewrite Hf. cbn [fst snd Mem.store].
    split; [reflexivity|]. split; [reflexivity|]. split; [exact Sdet|exact Fdet]. }
  intros Hpass.
  split; [intros t Ht; now apply forward_keeps_tensors|].
  split; [intros Hx; now apply forward_keeps_tensors|].
  split; [now apply forward_params|].
  split; [intros F; now apply forward_weights|].
  rewrite M.
  split; [apply Mem.pass_keeps_training|apply Mem.pass_keeps_setup].
Qed.

(** C8.  [forward] keeps no state and is a function of [nc], the
    parameters and the input.  The pair it returns is what [assemble]
    makes of the pair the network returned, whatever the storages hold
    and wherever the tensors lie in them, and holds one element per
    index.  With a network that is itself a function of its
    parameters, set-up and argument, and whose pass writes to no tensor
    there was: a second call on the same input returns a pair of the
    same values as the first, and the pair the first call returned
    still has these values after the second call; calls made before,
    on any inputs, change nothing of what a call returns; and a call
    in any other world with the same [nc], the same parameter values
    and set-up, on an input of the same value, returns the same
    values.  These are the values [forward] returns on values, for a
    network that returns what the pass does. *)
Theorem C8_stateless_deterministic (Hpass : Mem.PassContract lib)
  (x : Mem.View) (w : Mem.World V) :
  Mem.allocated (Mem.store w) x ->
  Forall (Mem.allocated (Mem.store w)) (Mem.net_params (Mem.self_model w)) ->
  let first := Mem.forward x w in
  let second := Mem.forward x (snd first) in
  Mem.outcome first
  = assemble (Mem.self_nc w) (Mem.outcome (Mem.call_model x w)) /\
  (forall det protos,
     Mem.outcome first = Ok (det, protos) ->
     well_formed det /\ well_formed protos) /\
  Mem.outcome second = Mem.outcome first /\
  Mem.outcome (fst first, snd second) = Mem.outcome first /\
  (forall ys,
     Mem.outcome (Mem.forward x (Mem.after_calls w ys)) = Mem.outcome first) /\
  (forall w' x',
     Mem.self_nc w' = Mem.self_nc w ->
     Mem.same_network w w' ->
     Mem.load (Mem.store w') x' = Mem.load (Mem.store w) x ->
     Mem.outcome (Mem.forward x' w') = Mem.outcome first) /\
  (forall (ext : Ultralytics V) (self : WarpModel V) (xv : Tensor V),
     nc self = Mem.self_nc w ->
     fst (call (model self) xv) = Mem.outcome (Mem.call_model x w) ->
     fst (forward self xv) = Mem.outcome first).
Proof.
  intros Hx F. cbv zeta.
  assert (Hret : forall (w1 : Mem.World V) y p q,
             fst (Mem.call_model y w1) = Ok (p, q) ->
             Mem.allocated (Mem.store (snd (Mem.call_model y w1))) p /\
             Mem.allocated (Mem.store (snd (Mem.call_model y w1))) q).
  { intros w1 y p q. apply Mem.pass_returns. }
  assert (Hsecond : Mem.outcome (Mem.forward x (snd (Mem.forward x w)))
                    = Mem.outcome (Mem.forward x w)).
  { apply (forward_function Hpass).
    - apply (forward_nc x w).
    - now apply forward_same_network.
    - now apply forward_keeps_tensors. }
  split; [apply forward_outcome, Hret|].
  split.
  { intros det protos. unfold Mem.outcome.
    destruct (fst (Mem.forward x w)) as [[t u]|e]; [|discriminate].
    intros [= <- <-]. split; apply length_build. }
  split; [exact Hsecond|].
  split.
  { unfold Mem.outcome at 1 2. cbn [fst snd].
    destruct (fst (Mem.forward x w)) as [[det protos]|e] eqn:E; [|reflexivity].
    destruct (forward_returns_allocated x w det protos (Hret w x) E) as [Hd Hp].
    destruct (forward_keeps_tensors Hpass x (snd (Mem.forward x w)) det Hd)
      as [_ ->].
    destruct (forward_keeps_tensors Hpass x (snd (Mem.forward x w)) protos Hp)
      as [_ ->].
    reflexivity. }
  split.
  { intros ys. destruct (after_calls_keeps_world Hpass ys w F) as (N & S & K).
    apply (forward_function Hpass); [exact N|exact S|]. now apply K. }
  split; [intros w' x'; apply (forward_function Hpass)|].
  intros ext self xv. apply forward_refines, Hret.
Qed.

End StoreClaims.

(** * The small network on the store *)

Lemma row_major_length (s : list nat) : length (Mem.row_major s) = length s.
Proof. induction s as [|n s IH]; simpl; congruence. Qed.

Lemma memdemo_note_setup (n : Mem.Network) :
  Mem.setup (MemDemo.note n) = Mem.setup n.
Proof.
  unfold Mem.setup, MemDemo.note. cbn [Mem.net_modules]. rewrite map_map.
  apply map_ext. intros [k m]. cbn [fst snd setattr mro map].
  unfold getattr, setattr. cbn [attrs].
  now rewrite !assoc_get_set_other by reflexivity.
Qed.

Lemma memdemo_fresh_allocated (h fresh : Mem.Store Z) (l : nat) (t : Mem.View) :
  l < length (h ++ fresh) -> Mem.allocated (h ++ fresh) (MemDemo.fresh_view l t).
Proof.
  intros H. split; [exact H|]. cbn. apply row_major_length.
Qed.

(** The copies a pass returns have the values of the parameters. *)
Lemma memdemo_copies (h : Mem.Store Z) (p q : Mem.View) :
  Mem.load (h ++ [MemDemo.copy h p; MemDemo.copy h q])
    (MemDemo.fresh_view (length h) p) = Mem.load h p /\
  Mem.load (h ++ [MemDemo.copy h p; MemDemo.copy h q])
    (MemDemo.fresh_view (S (length h)) q) = Mem.load h q.
Proof.
  change (h ++ [MemDemo.copy h p; MemDemo.copy h q])
    with (h ++ [MemDemo.copy h p] ++ [MemDemo.copy h q]).
  rewrite app_assoc. split.
  - rewrite load_app.
    + unfold MemDemo.fresh_view, MemDemo.copy, Mem.load at 2.
      cbn [data tabulate]. apply load_fresh.
    + apply memdemo_fresh_allocated. rewrite length_app. cbn. lia.
  - replace (S (length h)) with (length (h ++ [MemDemo.copy h p]))
      by (rewrite length_app; cbn; lia).
    unfold MemDemo.fresh_view, MemDemo.copy at 2, Mem.load at 2.
    cbn [data tabulate]. apply load_fresh.
Qed.

Lemma memdemo_outcome (x : Mem.View) (w : Mem.World Z) :
  Mem.outcome (Mem.call_model x w)
  = match Mem.net_params (Mem.self_model w) with
    | p :: q :: _ =>
        if Nat.eqb (length (Mem.sizes x)) 4 then
          Ok (Mem.load (Mem.store w) p, Mem.load (Mem.store w) q)
        else Raise (RuntimeError "expected a 4D input")
    | _ => Raise (RuntimeError "no weights")
    end.
Proof.
  unfold Mem.outcome, Mem.call_model. cbn [Mem.pass MemDemo.lib].
  unfold MemDemo.net_pass.
  destruct (Mem.net_params (Mem.self_model w)) as [|p [|q l]]; try reflexivity.
  destruct (Nat.eqb (length (Mem.sizes x)) 4); [|reflexivity].
  cbn [fst snd Mem.store].
  destruct (memdemo_copies (Mem.store w) p q) as [-> ->]. reflexivity.
Qed.

Lemma memdemo_contract : Mem.PassContract MemDemo.lib.
Proof.
  split.
  - intros w x p q. unfold Mem.call_model. cbn [Mem.pass MemDemo.lib].
    unfold MemDemo.net_pass.
    destruct (Mem.net_params (Mem.self_model w)) as [|p0 [|q0 l]];
      try discriminate.
    destruct (Nat.eqb (length (Mem.sizes x)) 4); [|discriminate].
    cbn [fst snd Mem.store]. intros [= <- <-].
    split; apply memdemo_fresh_allocated; rewrite length_app; cbn; lia.
  - intros w x t Ht. unfold Mem.call_model. cbn [Mem.pass MemDemo.lib].
    unfold MemDemo.net_pass.
    destruct (Mem.net_params (Mem.self_model w)) as [|p0 [|q0 l]];
      try (now split).
    destruct (Nat.eqb (length (Mem.sizes x)) 4); [|now split].
    cbn [fst snd Mem.store].
    split; [now apply allocated_app|now apply load_app].
  - intros w x. unfold Mem.call_model. cbn [Mem.pass MemDemo.lib].
    unfold MemDemo.net_pass.
    destruct (Mem.net_params (Mem.self_model w)) as [|p0 [|q0 l]] eqn:E;
      try (cbn; now rewrite E).
    destruct (Nat.eqb (length (Mem.sizes x)) 4); cbn; now rewrite E.
  - intros w x. unfold Mem.call_model. cbn [Mem.pass MemDemo.lib].
    unfold MemDemo.net_pass.
    destruct (Mem.net_params (Mem.self_model w)) as [|p0 [|q0 l]];
      try reflexivity.
    destruct (Nat.eqb (length (Mem.sizes x)) 4); reflexivity.
  - intros w x. unfold Mem.call_model. cbn [Mem.pass MemDemo.lib].
    unfold MemDemo.net_pass.
    destruct (Mem.net_params (Mem.self_model w)) as [|p0 [|q0 l]];
      try reflexivity.
    destruct (Nat.eqb (length (Mem.sizes x)) 4); [|reflexivity].
    cbn [fst snd Mem.self_model]. apply memdemo_note_setup.
  - intros w w' x x' (W & _ & _) X. rewrite !memdemo_outcome.
    unfold Mem.weights in W.
    assert (Hs : Mem.sizes x' = Mem.sizes x) by exact (f_equal shape X).
    rewrite Hs.
    destruct (Mem.net_params (Mem.self_model w)) as [|p [|q l]];
      destruct (Mem.net_params (Mem.self_model w')) as [|p' [|q' l']];
      try discriminate; try reflexivity.
    cbn [map] in W.
    destruct (Nat.eqb (length (Mem.sizes x)) 4); [congruence|reflexivity].
Qed.

Lemma C5_no_side_effects_witness :
  Mem.self_nc (snd (Mem.forward MemDemo.x MemDemo.world)) = 2%Z /\
  Mem.load (Mem.store (snd (Mem.forward MemDemo.x MemDemo.world))) MemDemo.x
  = Demo.x /\
  Mem.weights (snd (Mem.forward MemDemo.x MemDemo.world))
  = [Demo.preds; Demo.protos] /\
  length (Mem.store (snd (Mem.forward MemDemo.x MemDemo.world)))
  <= length (Mem.store (snd (Mem.call_model MemDemo.x MemDemo.world))) + 2 /\
  exists det d,
    fst (Mem.forward MemDemo.x MemDemo.world)
    = Ok (det, MemDemo.fresh_view 4 MemDemo.protos) /\
    Mem.store (snd (Mem.forward MemDemo.x MemDemo.world))
    = Mem.store (snd (Mem.call_model MemDemo.x MemDemo.world)) ++ [[1%Z; 1%Z]; d] /\
    Mem.storage det = 6 /\
    Mem.fills (Mem.store (snd (Mem.forward MemDemo.x MemDemo.world))) det.
Proof.
  destruct (C5_no_side_effects (laws := demo_laws) (lib := MemDemo.lib)
              MemDemo.x MemDemo.world) as (H1 & _ & H3 & _ & H5 & H6).
  destruct (H6 memdemo_contract) as (_ & Hx & _ & Hw & _).
  split; [exact H1|].
  split; [rewrite Hx by (split; [cbn; lia|reflexivity]); reflexivity|].
  split; [rewrite Hw by (repeat constructor; cbn; lia); reflexivity|].
  split; [destruct H3 as (fresh & -> & L); rewrite length_app; lia|].
  exact (H5 (MemDemo.fresh_view 3 MemDemo.preds)
            (MemDemo.fresh_view 4 MemDemo.protos) 1 7 2
            ltac:(reflexivity) ltac:(reflexivity)
            ltac:(split; [cbn; lia|reflexivity])).
Defined.

Lemma C8_stateless_deterministic_witness :
  Mem.outcome (Mem.forward MemDemo.x (snd (Mem.forward MemDemo.x MemDemo.world)))
  = Mem.outcome (Mem.forward MemDemo.x MemDemo.world) /\
  Mem.outcome (Mem.forward MemDemo.x
                 (Mem.after_calls MemDemo.world [MemDemo.x'; MemDemo.preds]))
  = Mem.outcome (Mem.forward MemDemo.x MemDemo.world) /\
  Mem.outcome (Mem.forward MemDemo.x' MemDemo.world')
  = Mem.outcome (Mem.forward MemDemo.x MemDemo.world) /\
  Mem.outcome (Mem.forward MemDemo.x MemDemo.world)
  = fst (forward Demo.self Demo.x).
Proof.
  destruct (C8_stateless_deterministic (laws := demo_laws) memdemo_contract
              MemDemo.x MemDemo.world
              ltac:(split; [cbn; lia|reflexivity])
              ltac:(repeat constructor; cbn; lia))
    as (_ & _ & H2 & _ & H4 & H5 & H6).
  split; [exact H2|].
  split; [apply H4|].
  split; [apply H5; [reflexivity|repeat split|reflexivity]|].
  symmetry. apply (H6 Demo.ext); reflexivity.
Defined.
